(** * FetchData.py: price history exporter

    A shallow embedding of [PortfolioAnalyzer.Core/Data/FetchData.py] and the
    statements of its specification.

    The script reads a ticker and a start date from [sys.argv], downloads the
    daily history with [yf.download], turns the date index into a column,
    keeps the [Date] and [Close] columns, formats the dates with
    [strftime('%Y-%m-%d')] and prints [to_json(orient="records")].

    The embedding follows the script statement by statement.  Python
    exceptions are the [Raise] case of an error monad.  A pandas [DataFrame]
    is a row index and the columns in order, each label (a name, or a
    (field, symbol) tuple under a two-level index) with its typed [Series];
    repeated labels are possible, as in pandas.  The provider call
    [yf.download] and the rendering of a float by the JSON encoder are
    variables.  Timestamps are without time zone, as the provider returns
    them for daily data.  Standard output is what the script prints: what the
    provider library itself may write while it downloads is outside the
    model. *)

From Stdlib Require Import ZArith List String Ascii Bool Lia Sorted.
Import ListNotations.

Local Set Warnings "-register-all".

Local Open Scope string_scope.
Local Open Scope Z_scope.

(** ** Python: exceptions and the process boundary *)

Module Py.

Inductive Exception : Type :=
| IndexError
| KeyError
| ValueError
| AttributeError
| DownloadError (msg : string).

Inductive result (A : Type) : Type :=
| Ok (a : A)
| Raise (e : Exception).

Arguments Ok {A} a.
Arguments Raise {A} e.

Definition bind {A B : Type} (c : result A) (k : A -> result B) : result B :=
  match c with
  | Ok a => k a
  | Raise e => Raise e
  end.

(** What the operating system sees of one run. *)
Record Process : Type := { stdout : string; exit_status : Z }.

(** [xs[i]] on a Python list, for a non-negative literal [i]. *)
Definition list_getitem {A : Type} (xs : list A) (i : nat) : result A :=
  match nth_error xs i with
  | Some x => Ok x
  | None => Raise IndexError
  end.

End Py.

Import Py.

Notation "x <- c ;; k" := (Py.bind c (fun x => k))
  (at level 61, c at next level, right associativity).

(** ** Characters and decimal digits *)

Definition dquote : ascii := "034"%char.
Definition newline : ascii := "010"%char.

Definition digit (n : Z) : ascii := ascii_of_nat (48 + Z.to_nat (n mod 10)).

Definition is_digit (c : ascii) : bool :=
  let n := nat_of_ascii c in (48 <=? n)%nat && (n <=? 57)%nat.

Definition digit_val (c : ascii) : Z := Z.of_nat (nat_of_ascii c) - 48.

Definition pad2 (n : Z) : string :=
  String (digit (n / 10)) (String (digit n) "").

Definition pad4 (n : Z) : string :=
  String (digit (n / 1000)) (String (digit (n / 100)) (pad2 n)).

(** Decimal digits of a positive number, most significant first; [fuel]
    bounds the number of digits. *)
Fixpoint digits (fuel : nat) (n : Z) (acc : string) : string :=
  match fuel with
  | O => acc
  | S fuel' =>
      if n <? 10 then String (digit n) acc
      else digits fuel' (n / 10) (String (digit n) acc)
  end.

(** [str(n)] for an integer. *)
Definition str_int (n : Z) : string :=
  if n <? 0 then String "-" (digits (Z.to_nat (Z.log2 (- n)) + 1) (- n) "")
  else digits (Z.to_nat (Z.log2 n) + 1) n "".

(** ** Calendar dates *)

Module Calendar.

Definition date : Type := (Z * Z * Z)%type.

Definition is_leap (y : Z) : bool :=
  ((y mod 4 =? 0) && negb (y mod 100 =? 0)) || (y mod 400 =? 0).

(** Lengths of the months of a common and of a leap year. *)
Definition month_lengths (leap : bool) : list Z :=
  [31; if leap then 29 else 28; 31; 30; 31; 30; 31; 31; 30; 31; 30; 31].

Definition days_in_month (y m : Z) : Z :=
  nth (Z.to_nat (m - 1)) (month_lengths (is_leap y)) 0.

Definition valid (d : date) : bool :=
  let '(y, m, dd) := d in
  (1 <=? y) && (y <=? 9999) && (1 <=? m) && (m <=? 12)
  && (1 <=? dd) && (dd <=? days_in_month y m).

(** The year of a day number counted from 1970-01-01, and the day within
    that year counted from 0: the day is taken relative to 2000-01-01, cut
    into cycles of 400 years, then into centuries, groups of four years and
    years, as the datetime conversion of pandas does it.  Division and
    remainder round down. *)
Definition days_to_yearsdays (days : Z) : Z * Z :=
  let days := days - (365 * 30 + 7) in
  let year := 400 * (days / 146097) in
  let days := days mod 146097 in
  if days <? 366 then (year + 2000, days)
  else
    let year := year + 100 * ((days - 1) / 36524) in
    let days := (days - 1) mod 36524 in
    if days <? 365 then (year + 2000, days)
    else
      let year := year + 4 * ((days + 1) / 1461) in
      let days := (days + 1) mod 1461 in
      if days <? 366 then (year + 2000, days)
      else (year + (days - 1) / 365 + 2000, (days - 1) mod 365).

(** The walk over the table of month lengths: month and day of the month,
    both from 1. *)
Fixpoint month_day (lengths : list Z) (month days : Z) : Z * Z :=
  match lengths with
  | [] => (month, days + 1)
  | l :: rest =>
      if days <? l then (month, days + 1)
      else month_day rest (month + 1) (days - l)
  end.

(** The proleptic Gregorian date of a day number counted from 1970-01-01. *)
Definition civil_from_days (z : Z) : date :=
  let (y, doy) := days_to_yearsdays z in
  let (m, d) := month_day (month_lengths (is_leap y)) 1 doy in
  (y, m, d).

(** The day number of the first of January of a year. *)
Definition days_before_year (y : Z) : Z :=
  365 * (y - 1970) + (y - 1969) / 4 - (y - 1901) / 100 + (y - 1601) / 400.

Definition year_length (y : Z) : Z := if is_leap y then 366 else 365.

(** Dates in calendar order. *)
Definition leb (a b : date) : bool :=
  let '(y1, m1, d1) := a in
  let '(y2, m2, d2) := b in
  (y1 <? y2) || ((y1 =? y2) && ((m1 <? m2) || ((m1 =? m2) && (d1 <=? d2)))).

(** [YYYY-MM-DD], as [strftime('%Y-%m-%d')] writes a date whose year has
    four digits. *)
Definition isoformat (d : date) : string :=
  let '(y, m, dd) := d in
  pad4 y ++ String "-" (pad2 m) ++ String "-" (pad2 dd).

(** Decoding of a [YYYY-MM-DD] string: ten characters, digits around two
    hyphens, and a date that exists in the calendar
    ([datetime.date.fromisoformat]). *)
Definition fromisoformat (s : string) : option date :=
  match list_ascii_of_string s with
  | [y1; y2; y3; y4; h1; m1; m2; h2; d1; d2] =>
      if forallb is_digit [y1; y2; y3; y4; m1; m2; d1; d2]
         && Ascii.eqb h1 "-" && Ascii.eqb h2 "-"
      then
        let y := 1000 * digit_val y1 + 100 * digit_val y2
                 + 10 * digit_val y3 + digit_val y4 in
        let m := 10 * digit_val m1 + digit_val m2 in
        let d := 10 * digit_val d1 + digit_val d2 in
        if valid (y, m, d) then Some (y, m, d) else None
      else None
  | _ => None
  end.

End Calendar.

(** ** JSON values, text and parsing *)

Module Json.

Inductive json : Type :=
| JNull
| JBool (b : bool)
| JNumber (literal : string)
| JString (s : string)
| JArray (items : list json)
| JObject (members : list (string * json)).

Definition hex_digit (n : nat) : ascii :=
  if (n <? 10)%nat then ascii_of_nat (48 + n) else ascii_of_nat (87 + n).

(** Escaping of one character inside a JSON string, as the encoder behind
    [to_json] writes it (it also escapes the forward slash).  Characters
    above 127 are left as they are: text outside ASCII is not modelled, and
    the script only serialises the keys [Date] and [Close], numbers, and
    strings of digits and hyphens. *)
Definition escape_char (c : ascii) : string :=
  let n := nat_of_ascii c in
  if Ascii.eqb c dquote then String "\" (String dquote "")
  else if Ascii.eqb c "\" then "\\"
  else if Ascii.eqb c "/" then "\/"
  else if (n =? 8)%nat then "\b"
  else if (n =? 12)%nat then "\f"
  else if (n =? 10)%nat then "\n"
  else if (n =? 13)%nat then "\r"
  else if (n =? 9)%nat then "\t"
  else if (n <? 32)%nat
       then "\u00" ++ String (hex_digit (n / 16)) (String (hex_digit (n mod 16)) "")
  else String c "".

Fixpoint escape (s : string) : string :=
  match s with
  | EmptyString => ""
  | String c r => escape_char c ++ escape r
  end.

Definition quote (s : string) : string :=
  String dquote (escape s ++ String dquote "").

(** Compact JSON text (no blanks), as [to_json] emits it. *)
Fixpoint dumps (v : json) : string :=
  match v with
  | JNull => "null"
  | JBool true => "true"
  | JBool false => "false"
  | JNumber lit => lit
  | JString s => quote s
  | JArray items => "[" ++ String.concat "," (map dumps items) ++ "]"
  | JObject members =>
      "{" ++ String.concat ","
               (map (fun kv => quote (fst kv) ++ ":" ++ dumps (snd kv)) members) ++ "}"
  end.

(** *** Lexing *)

Definition is_ws (c : ascii) : bool :=
  let n := nat_of_ascii c in
  (n =? 32)%nat || (n =? 10)%nat || (n =? 13)%nat || (n =? 9)%nat.

Fixpoint skip_ws (s : string) : string :=
  match s with
  | String c r => if is_ws c then skip_ws r else s
  | EmptyString => s
  end.

Fixpoint span (p : ascii -> bool) (s : string) : string * string :=
  match s with
  | String c r =>
      if p c then let (a, b) := span p r in (String c a, b) else ("", s)
  | EmptyString => ("", "")
  end.

Definition lex_sign (s : string) : string * string :=
  match s with
  | String c r => if Ascii.eqb c "-" then ("-", r) else ("", s)
  | EmptyString => ("", s)
  end.

(** [0], or a non-zero digit followed by digits. *)
Definition lex_int (s : string) : option (string * string) :=
  match s with
  | String c r =>
      if Ascii.eqb c "0" then Some ("0", r)
      else if is_digit c then let (ds, r') := span is_digit r in Some (String c ds, r')
      else None
  | EmptyString => None
  end.

Definition lex_frac (s : string) : option (string * string) :=
  match s with
  | String c r =>
      if Ascii.eqb c "." then
        match span is_digit r with
        | (EmptyString, _) => None
        | (ds, r') => Some (String c ds, r')
        end
      else Some ("", s)
  | EmptyString => Some ("", s)
  end.

Definition lex_exp_sign (s : string) : string * string :=
  match s with
  | String c r =>
      if Ascii.eqb c "-" || Ascii.eqb c "+" then (String c "", r) else ("", s)
  | EmptyString => ("", s)
  end.

Definition lex_exp (s : string) : option (string * string) :=
  match s with
  | String c r =>
      if Ascii.eqb c "e" || Ascii.eqb c "E" then
        let (sg, r1) := lex_exp_sign r in
        match span is_digit r1 with
        | (EmptyString, _) => None
        | (ds, r') => Some (String c (sg ++ ds), r')
        end
      else Some ("", s)
  | EmptyString => Some ("", s)
  end.

(** Integer part, optional fraction, optional exponent. *)
Definition lex_unsigned (s : string) : option (string * string) :=
  match lex_int s with
  | None => None
  | Some (i, s2) =>
      match lex_frac s2 with
      | None => None
      | Some (f, s3) =>
          match lex_exp s3 with
          | None => None
          | Some (e, s4) => Some (i ++ f ++ e, s4)
          end
      end
  end.

(** A number of the JSON grammar at the head of [s]: the literal and what
    follows it. *)
Definition lex_number (s : string) : option (string * string) :=
  let (sg, s1) := lex_sign s in
  match lex_unsigned s1 with
  | Some (u, rest) => Some (sg ++ u, rest)
  | None => None
  end.

Definition is_number (lit : string) : bool :=
  match lex_number lit with
  | Some (_, EmptyString) => true
  | _ => false
  end.

Definition unescape (e : ascii) : option ascii :=
  if Ascii.eqb e dquote then Some dquote
  else if Ascii.eqb e "\" then Some "\"%char
  else if Ascii.eqb e "/" then Some "/"%char
  else if Ascii.eqb e "b" then Some (ascii_of_nat 8)
  else if Ascii.eqb e "f" then Some (ascii_of_nat 12)
  else if Ascii.eqb e "n" then Some (ascii_of_nat 10)
  else if Ascii.eqb e "r" then Some (ascii_of_nat 13)
  else if Ascii.eqb e "t" then Some (ascii_of_nat 9)
  else None.

Definition hex_val (c : ascii) : option nat :=
  let n := nat_of_ascii c in
  if (48 <=? n)%nat && (n <=? 57)%nat then Some (n - 48)%nat
  else if (97 <=? n)%nat && (n <=? 102)%nat then Some (n - 87)%nat
  else if (65 <=? n)%nat && (n <=? 70)%nat then Some (n - 55)%nat
  else None.

(** The character of a [\uXXXX] escape, for the codes below 256 that a
    character of this model can hold. *)
Definition unescape_u (h1 h2 h3 h4 : ascii) : option ascii :=
  match hex_val h1, hex_val h2, hex_val h3, hex_val h4 with
  | Some a, Some b, Some c, Some d =>
      if (Nat.eqb a 0 && Nat.eqb b 0)%bool then Some (ascii_of_nat (16 * c + d)) else None
  | _, _, _, _ => None
  end.

(** The characters of a string literal after its opening quote, up to the
    closing quote. *)
Fixpoint lex_chars (s : string) : option (string * string) :=
  match s with
  | EmptyString => None
  | String c r =>
      if Ascii.eqb c dquote then Some ("", r)
      else if Ascii.eqb c "\" then
        match r with
        | String e r' =>
            if Ascii.eqb e "u" then
              match r' with
              | String h1 (String h2 (String h3 (String h4 r''))) =>
                  match unescape_u h1 h2 h3 h4, lex_chars r'' with
                  | Some c', Some (t, rest) => Some (String c' t, rest)
                  | _, _ => None
                  end
              | _ => None
              end
            else
              match unescape e, lex_chars r' with
              | Some c', Some (t, rest) => Some (String c' t, rest)
              | _, _ => None
              end
        | EmptyString => None
        end
      else if (nat_of_ascii c <? 32)%nat then None
      else
        match lex_chars r with
        | Some (t, rest) => Some (String c t, rest)
        | None => None
        end
  end.

Fixpoint lex_keyword (kw s : string) : option string :=
  match kw, s with
  | EmptyString, _ => Some s
  | String k kw', String c r => if Ascii.eqb k c then lex_keyword kw' r else None
  | String _ _, EmptyString => None
  end.

(** *** Recursive descent; [fuel] bounds the number of nested calls. *)

Fixpoint parse_value (fuel : nat) (s : string) {struct fuel}
  : option (json * string) :=
  match fuel with
  | O => None
  | S fuel' =>
      match skip_ws s with
      | EmptyString => None
      | String c r =>
          if Ascii.eqb c "[" then
            match skip_ws r with
            | String c' r' =>
                if Ascii.eqb c' "]" then Some (JArray [], r')
                else
                  match parse_elements fuel' r with
                  | Some (l, rest) => Some (JArray l, rest)
                  | None => None
                  end
            | EmptyString => None
            end
          else if Ascii.eqb c "{" then
            match skip_ws r with
            | String c' r' =>
                if Ascii.eqb c' "}" then Some (JObject [], r')
                else
                  match parse_members fuel' r with
                  | Some (l, rest) => Some (JObject l, rest)
                  | None => None
                  end
            | EmptyString => None
            end
          else if Ascii.eqb c dquote then
            match lex_chars r with
            | Some (t, rest) => Some (JString t, rest)
            | None => None
            end
          else if Ascii.eqb c "n" then
            match lex_keyword "ull" r with
            | Some rest => Some (JNull, rest)
            | None => None
            end
          else if Ascii.eqb c "t" then
            match lex_keyword "rue" r with
            | Some rest => Some (JBool true, rest)
            | None => None
            end
          else if Ascii.eqb c "f" then
            match lex_keyword "alse" r with
            | Some rest => Some (JBool false, rest)
            | None => None
            end
          else
            match lex_number (String c r) with
            | Some (lit, rest) => Some (JNumber lit, rest)
            | None => None
            end
      end
  end

with parse_elements (fuel : nat) (s : string) {struct fuel}
  : option (list json * string) :=
  match fuel with
  | O => None
  | S fuel' =>
      match parse_value fuel' s with
      | Some (v, r) =>
          match skip_ws r with
          | String c r' =>
              if Ascii.eqb c "," then
                match parse_elements fuel' r' with
                | Some (l, rest) => Some (v :: l, rest)
                | None => None
                end
              else if Ascii.eqb c "]" then Some ([v], r')
              else None
          | EmptyString => None
          end
      | None => None
      end
  end

with parse_members (fuel : nat) (s : string) {struct fuel}
  : option (list (string * json) * string) :=
  match fuel with
  | O => None
  | S fuel' =>
      match skip_ws s with
      | String q r =>
          if Ascii.eqb q dquote then
            match lex_chars r with
            | Some (k, r1) =>
                match skip_ws r1 with
                | String c r2 =>
                    if Ascii.eqb c ":" then
                      match parse_value fuel' r2 with
                      | Some (v, r3) =>
                          match skip_ws r3 with
                          | String c' r4 =>
                              if Ascii.eqb c' "," then
                                match parse_members fuel' r4 with
                                | Some (l, rest) => Some ((k, v) :: l, rest)
                                | None => None
                                end
                              else if Ascii.eqb c' "}" then Some ([(k, v)], r4)
                              else None
                          | EmptyString => None
                          end
                      | None => None
                      end
                    else None
                | EmptyString => None
                end
            | None => None
            end
          else None
      | EmptyString => None
      end
  end.

(** [json.loads]: one value, then only blanks. *)
Definition loads (s : string) : option json :=
  match parse_value (S (String.length s)) s with
  | Some (v, rest) =>
      match skip_ws rest with
      | EmptyString => Some v
      | String _ _ => None
      end
  | None => None
  end.

(** The text of one member of an object. *)
Definition member_text (kv : string * json) : string :=
  quote (fst kv) ++ ":" ++ dumps (snd kv).

(** *** Texts that read back as they were written *)

Fixpoint all_chars (p : ascii -> bool) (s : string) : bool :=
  match s with
  | EmptyString => true
  | String c r => p c && all_chars p r
  end.

(** What may follow a number: the end of the text, or a character that no
    number continues with. *)
Definition number_boundary (rest : string) : bool :=
  match rest with
  | EmptyString => true
  | String c _ =>
      negb (is_digit c || Ascii.eqb c "." || Ascii.eqb c "e" || Ascii.eqb c "E")
  end.

(** null, a number of the grammar, or a string. *)
Definition scalar (v : json) : bool :=
  match v with
  | JNull => true
  | JNumber lit => is_number lit
  | JString _ => true
  | _ => false
  end.

(** An object with at least one and at most [k] members, all of them
    scalars. *)
Definition flat_object (k : nat) (v : json) : bool :=
  match v with
  | JObject members =>
      negb (Nat.eqb (List.length members) 0) && (List.length members <=? k)%nat
      && forallb (fun kv => scalar (snd kv)) members
  | _ => false
  end.

End Json.

(** ** pandas: Series and DataFrame *)

(** A [datetime64[ns]] cell is a signed 64-bit count of nanoseconds since
    1970-01-01T00:00; the smallest 64-bit value stands for NaT, the missing
    timestamp. *)
Definition iNaT : Z := - 2 ^ 63.

Definition day_ns : Z := 86400000000000.

(** A timestamp proper: a 64-bit value other than NaT. *)
Definition is_timestamp (t : Z) : bool := (iNaT <? t) && (t <? 2 ^ 63).

(** One element of [Series.dt.strftime('%Y-%m-%d')]: the calendar date of
    the timestamp, NaN for NaT. *)
Definition strftime_Ymd (t : Z) : option string :=
  if t =? iNaT then None
  else Some (Calendar.isoformat (Calendar.civil_from_days (t / day_ns))).

Section Pandas.

(** The values of a [float64] column, and the text the JSON encoder writes
    for one of them ([None] for NaN and the infinities, which it writes as
    [null]). *)
Variable F : Type.
Variable dumps_double : F -> option string.

Inductive Series : Type :=
| datetime64 (values : list Z)
| float64 (values : list F)
| int64 (values : list Z)
| object (values : list (option string)).

Definition len (s : Series) : nat :=
  match s with
  | datetime64 v => List.length v
  | float64 v => List.length v
  | int64 v => List.length v
  | object v => List.length v
  end.

Inductive RowIndex : Type :=
| RangeIndex (stop : nat)
| DatetimeIndex (name : option string) (values : list Z).

(** The columns in column order, each label with its Series: names for a
    flat [Index], (field, symbol) tuples for a two-level [MultiIndex]. *)
Inductive Columns : Type :=
| Index (cols : list (string * Series))
| MultiIndex (cols : list ((string * string) * Series)).

Record DataFrame : Type := { index : RowIndex; columns : Columns }.

(** What an expression of the script may evaluate to. *)
Inductive PyObj : Type :=
| ASeries (s : Series)
| AFrame (df : DataFrame).

Definition nrows (df : DataFrame) : nat :=
  match index df with
  | RangeIndex n => n
  | DatetimeIndex _ v => List.length v
  end.

Definition tuple_eqb (a b : string * string) : bool :=
  String.eqb (fst a) (fst b) && String.eqb (snd a) (snd b).

Fixpoint is_unique {L : Type} (eqb : L -> L -> bool) (labels : list L) : bool :=
  match labels with
  | [] => true
  | l :: r => negb (existsb (eqb l) r) && is_unique eqb r
  end.

(** [df.reset_index()]: the row index becomes the first column, under the
    name of the index ([index], or [level_0] when that is taken, for an
    index without a name) and, over two-level columns, with an empty second
    level; a label that already exists raises ValueError. *)
Definition reset_index (df : DataFrame) : result DataFrame :=
  let '(name, s) :=
    match index df with
    | RangeIndex n => (None, int64 (map Z.of_nat (seq 0 n)))
    | DatetimeIndex name v => (name, datetime64 v)
    end in
  let label (firsts : list string) : string :=
    match name with
    | Some n => n
    | None => if existsb (String.eqb "index") firsts then "level_0" else "index"
    end in
  match columns df with
  | Index cols =>
      let l := label (map fst cols) in
      if existsb (String.eqb l) (map fst cols) then Raise ValueError
      else Ok {| index := RangeIndex (nrows df); columns := Index ((l, s) :: cols) |}
  | MultiIndex cols =>
      let l := (label (map (fun c => fst (fst c)) cols), "") in
      if existsb (tuple_eqb l) (map fst cols) then Raise ValueError
      else Ok {| index := RangeIndex (nrows df); columns := MultiIndex ((l, s) :: cols) |}
  end.

(** [df[key]] for a string: over flat columns, the column of that name (a
    frame of all of them when the name is repeated); over two-level columns,
    the columns whose first level is [key], as one Series only when there is
    a single one and its second level is empty, else as a frame under the
    second-level names. *)
Definition getitem (df : DataFrame) (key : string) : result PyObj :=
  match columns df with
  | Index cols =>
      match filter (fun c => String.eqb (fst c) key) cols with
      | [] => Raise KeyError
      | [c] => Ok (ASeries (snd c))
      | sel => Ok (AFrame {| index := index df; columns := Index sel |})
      end
  | MultiIndex cols =>
      match filter (fun c => String.eqb (fst (fst c)) key) cols with
      | [] => Raise KeyError
      | sel =>
          match sel with
          | [((_, EmptyString), s)] => Ok (ASeries s)
          | _ => Ok (AFrame {| index := index df;
                               columns := Index (map (fun c => (snd (fst c), snd c)) sel) |})
          end
      end
  end.

(** [df[col]] for a complete tuple over two-level columns: the Series when
    the labels of the frame are unique, a frame of the matching columns when
    they are not.  Over flat columns no label is a tuple. *)
Definition getitem_tuple (df : DataFrame) (col : string * string) : result PyObj :=
  match columns df with
  | Index _ => Raise KeyError
  | MultiIndex cols =>
      match filter (fun c => tuple_eqb (fst c) col) cols with
      | [] => Raise KeyError
      | sel =>
          match sel with
          | [c] =>
              if is_unique tuple_eqb (map fst cols) then Ok (ASeries (snd c))
              else Ok (AFrame {| index := index df; columns := MultiIndex sel |})
          | _ => Ok (AFrame {| index := index df; columns := MultiIndex sel |})
          end
      end
  end.

(** [df.iloc[:, -1]]: the last column. *)
Definition iloc_last (df : DataFrame) : result PyObj :=
  let all :=
    match columns df with
    | Index cols => map snd cols
    | MultiIndex cols => map snd cols
    end in
  match rev all with
  | [] => Raise IndexError
  | s :: _ => Ok (ASeries s)
  end.

(** [df[[k1, k2, ...]]] over flat columns: for each key in turn, the columns
    of that name; KeyError when a key names no column. *)
Fixpoint take_columns (cols : list (string * Series)) (keys : list string)
  : result (list (string * Series)) :=
  match keys with
  | [] => Ok []
  | k :: keys' =>
      match filter (fun c => String.eqb (fst c) k) cols with
      | [] => Raise KeyError
      | sel => rest <- take_columns cols keys' ;; Ok (sel ++ rest)%list
      end
  end.

(** The same selection over two-level columns goes by the first level and
    keeps the tuples. *)
Fixpoint take_columns_multi (cols : list ((string * string) * Series)) (keys : list string)
  : result (list ((string * string) * Series)) :=
  match keys with
  | [] => Ok []
  | k :: keys' =>
      match filter (fun c => String.eqb (fst (fst c)) k) cols with
      | [] => Raise KeyError
      | sel => rest <- take_columns_multi cols keys' ;; Ok (sel ++ rest)%list
      end
  end.

Definition getitem_list (df : DataFrame) (keys : list string) : result DataFrame :=
  match columns df with
  | Index cols =>
      sel <- take_columns cols keys ;;
      Ok {| index := index df; columns := Index sel |}
  | MultiIndex cols =>
      sel <- take_columns_multi cols keys ;;
      Ok {| index := index df; columns := MultiIndex sel |}
  end.

(** [pd.DataFrame({k1: v1, k2: v2, ...})] for values taken from one frame,
    whose row index [idx] they share: every value has to be a Series (a
    frame is not one-dimensional: ValueError); the keys become the column
    names, in the order of the dict. *)
Fixpoint dict_columns (items : list (string * PyObj)) : result (list (string * Series)) :=
  match items with
  | [] => Ok []
  | (k, ASeries s) :: items' => rest <- dict_columns items' ;; Ok ((k, s) :: rest)
  | (_, AFrame _) :: _ => Raise ValueError
  end.

Definition DataFrame_of_dict (idx : RowIndex) (items : list (string * PyObj))
  : result DataFrame :=
  cols <- dict_columns items ;;
  Ok {| index := idx; columns := Index cols |}.

(** [obj.dt.strftime('%Y-%m-%d')]: only a Series of datetimes has the [dt]
    accessor; the result is a Series of strings. *)
Definition dt_strftime (obj : PyObj) : result Series :=
  match obj with
  | ASeries (datetime64 v) => Ok (object (map strftime_Ymd v))
  | _ => Raise AttributeError
  end.

Fixpoint assign {L : Type} (is_key : L -> bool) (s : Series) (cols : list (L * Series))
  : list (L * Series) :=
  match cols with
  | [] => []
  | c :: r => (if is_key (fst c) then (fst c, s) else c) :: assign is_key s r
  end.

(** [df[key] = s]: the columns named [key] take the new values in place; a
    new name is appended. *)
Definition setitem (df : DataFrame) (key : string) (s : Series) : DataFrame :=
  match columns df with
  | Index cols =>
      {| index := index df;
         columns := Index (if existsb (fun c => String.eqb (fst c) key) cols
                           then assign (fun l => String.eqb l key) s cols
                           else (cols ++ [(key, s)])%list) |}
  | MultiIndex cols =>
      {| index := index df;
         columns := MultiIndex (if existsb (fun c => String.eqb (fst (fst c)) key) cols
                                then assign (fun l => String.eqb (fst l) key) s cols
                                else (cols ++ [((key, ""), s)])%list) |}
  end.

(** *** to_json(orient="records") *)

(** The JSON value of each cell of a column: timestamps as milliseconds
    since the epoch (the default date format and unit), integers in decimal,
    floats as the encoder writes them, missing values as null. *)
Definition cells (s : Series) : list Json.json :=
  match s with
  | datetime64 v =>
      map (fun t => if t =? iNaT then Json.JNull
                    else Json.JNumber (str_int (Z.quot t 1000000))) v
  | float64 v =>
      map (fun x => match dumps_double x with
                    | Some lit => Json.JNumber lit
                    | None => Json.JNull
                    end) v
  | int64 v => map (fun n => Json.JNumber (str_int n)) v
  | object v =>
      map (fun o => match o with
                    | Some t => Json.JString t
                    | None => Json.JNull
                    end) v
  end.

(** The key of a two-level column in the JSON output: the text of the
    tuple. *)
Definition tuple_key (l : string * string) : string :=
  "('" ++ fst l ++ "', '" ++ snd l ++ "')".

Definition record (cols : list (string * Series)) (i : nat) : Json.json :=
  Json.JObject (map (fun c => (fst c, nth i (cells (snd c)) Json.JNull)) cols).

(** One object per row, in row order, with the column names as keys. *)
Definition records (n : nat) (cols : list (string * Series)) : list Json.json :=
  map (record cols) (seq 0 n).

(** [df.to_json(orient="records")]; repeated column names raise
    ValueError. *)
Definition to_json_records (df : DataFrame) : result string :=
  let cols :=
    match columns df with
    | Index cols => cols
    | MultiIndex cols => map (fun c => (tuple_key (fst c), snd c)) cols
    end in
  if is_unique String.eqb (map fst cols)
  then Ok (Json.dumps (Json.JArray (records (nrows df) cols)))
  else Raise ValueError.

(** ** The script *)

(** The provider: what [yf.download(ticker, start=start_date,
    interval="1d", auto_adjust=True)] returns or raises. *)
Variable yf_download : string -> string -> result DataFrame.

(** The loop over [data.columns]: the first tuple whose first level is
    [Close]. *)
Definition find_close (cols : list (string * string)) : option (string * string) :=
  find (fun col => String.eqb (fst col) "Close") cols.

(** Lines 17 to 32: the frame bound to [result_data].  [close_col] is [None]
    or a tuple of two strings, which is never falsy: the conditional
    expression tests whether the loop found a column. *)
Definition result_data (data : DataFrame) : result DataFrame :=
  match columns data with
  | MultiIndex cols =>
      let close_col := find_close (map fst cols) in
      date <- getitem data "Date" ;;
      close <- match close_col with
               | Some col => getitem_tuple data col
               | None => iloc_last data
               end ;;
      DataFrame_of_dict (index data) [("Date", date); ("Close", close)]
  | Index _ => getitem_list data ["Date"; "Close"]
  end.

(** Lines 35 and 38: the dates become strings and the frame becomes the
    JSON text. *)
Definition output (result_data : DataFrame) : result string :=
  date <- getitem result_data "Date" ;;
  formatted <- dt_strftime date ;;
  let result_data := setitem result_data "Date" formatted in
  to_json_records result_data.

(** The whole script, up to the text handed to [print]. *)
Definition script (argv : list string) : result string :=
  ticker <- list_getitem argv 1 ;;
  start_date <- list_getitem argv 2 ;;
  data <- yf_download ticker start_date ;;
  data <- reset_index data ;;
  result_data <- result_data data ;;
  output result_data.

(** One run of the process: [print] writes the text and a newline and the
    interpreter exits with status 0; an exception that nothing catches ends
    the run with status 1 before anything is printed. *)
Definition main (argv : list string) : Process :=
  match script argv with
  | Ok text => {| stdout := text ++ String newline ""; exit_status := 0 |}
  | Raise _ => {| stdout := ""; exit_status := 1 |}
  end.

End Pandas.

Arguments datetime64 {F} values.
Arguments float64 {F} values.
Arguments int64 {F} values.
Arguments object {F} values.
Arguments Index {F} cols.
Arguments MultiIndex {F} cols.
Arguments ASeries {F} s.
Arguments AFrame {F} df.
Arguments index {F} d.
Arguments columns {F} d.
Arguments nrows {F} df.
Arguments len {F} s.
Arguments reset_index {F} df.
Arguments getitem {F} df key.
Arguments getitem_tuple {F} df col.
Arguments getitem_list {F} df keys.
Arguments iloc_last {F} df.
Arguments take_columns {F} cols keys.
Arguments take_columns_multi {F} cols keys.
Arguments dict_columns {F} items.
Arguments DataFrame_of_dict {F} idx items.
Arguments dt_strftime {F} obj.
Arguments assign {F L} is_key s cols.
Arguments setitem {F} df key s.
Arguments cells {F} dumps_double s.
Arguments record {F} dumps_double cols i.
Arguments records {F} dumps_double n cols.
Arguments to_json_records {F} dumps_double df.
Arguments result_data {F} data.
Arguments output {F} dumps_double result_data.
Arguments script {F} dumps_double yf_download argv.
Arguments main {F} dumps_double yf_download argv.

(** ** Reading the output back *)

(** The records a run emitted: its standard output parsed as JSON. *)
Definition emitted (p : Process) : option (list Json.json) :=
  match Json.loads (stdout p) with
  | Some (Json.JArray l) => Some l
  | _ => None
  end.

Definition keys (r : Json.json) : list string :=
  match r with
  | Json.JObject members => map fst members
  | _ => []
  end.

Definition member (k : string) (r : Json.json) : option Json.json :=
  match r with
  | Json.JObject members =>
      match find (fun kv => String.eqb (fst kv) k) members with
      | Some kv => Some (snd kv)
      | None => None
      end
  | _ => None
  end.

(** The calendar date a record carries under [Date], when it decodes. *)
Definition record_date (r : Json.json) : option Calendar.date :=
  match member "Date" r with
  | Some (Json.JString s) => Calendar.fromisoformat s
  | _ => None
  end.

(** The output the specification describes: one object per row, in row
    order, the formatted date under [Date] and the price cell under
    [Close]. *)
Definition date_json (t : Z) : Json.json :=
  match strftime_Ymd t with
  | Some s => Json.JString s
  | None => Json.JNull
  end.

Definition rows (dates : list Z) (prices : list Json.json) : list Json.json :=
  map (fun r => Json.JObject [("Date", date_json (fst r)); ("Close", snd r)])
      (combine dates prices).

(** The shape [YYYY-MM-DD]: ten characters, digits around two hyphens. *)
Definition is_YYYY_MM_DD (s : string) : bool :=
  match list_ascii_of_string s with
  | [y1; y2; y3; y4; h1; m1; m2; h2; d1; d2] =>
      forallb is_digit [y1; y2; y3; y4; m1; m2; d1; d2]
      && Ascii.eqb h1 "-" && Ascii.eqb h2 "-"
  | _ => false
  end.

(** ** The provider's tables *)

(** Columns that all carry the same name. *)
Definition named {F : Type} (k : string) (cols : list (string * Series F)) : Prop :=
  Forall (fun c => fst c = k) cols.


(** A table of daily prices as the provider builds it for [n] dates: the
    labels are distinct, no field is called [Date] (the dates are the index,
    not a field), and every column has one cell per date.  [first] reads the
    field name off a label. *)
Definition fields_ok {F L : Type} (eqb : L -> L -> bool) (first : L -> string)
    (n : nat) (cols : list (L * Series F)) : bool :=
  is_unique eqb (map fst cols)
  && negb (existsb (fun c => String.eqb (first (fst c)) "Date") cols)
  && forallb (fun c => Nat.eqb (len (snd c)) n) cols.

Definition flat_ok {F : Type} (n : nat) (cols : list (string * Series F)) : bool :=
  fields_ok String.eqb (fun l => l) n cols.

Definition multi_ok {F : Type} (n : nat) (cols : list ((string * string) * Series F)) : bool :=
  fields_ok tuple_eqb fst n cols.

(** The daily history of the dates [idx]: the frame [yf.download] returns,
    indexed by a [DatetimeIndex] called [Date]. *)
Definition history {F : Type} (idx : list Z) (cols : Columns F) : DataFrame F :=
  {| index := DatetimeIndex (Some "Date") idx; columns := cols |}.

(** What is assumed of the JSON encoder: a float is written as a number of
    the JSON grammar, or as null. *)
Definition encoder_ok {F : Type} (dumps_double : F -> option string) : Prop :=
  forall x lit, dumps_double x = Some lit -> Json.is_number lit = true.

(** ** Sample data *)

(** Three float values and the text the encoder writes for them. *)
Inductive sample_price : Type := p132_04 | p127_85 | pNaN.

Definition sample_dumps (p : sample_price) : option string :=
  match p with
  | p132_04 => Some "132.04"
  | p127_85 => Some "127.85"
  | pNaN => None
  end.

(** Midnight of 2021-05-03 and of 2021-05-04, in nanoseconds. *)
Definition may_3 : Z := 1620000000000000000.
Definition may_4 : Z := 1620086400000000000.

Definition sample_flat : DataFrame sample_price :=
  history [may_3; may_4]
    (Index [("Close", float64 [p132_04; p127_85]);
            ("High", float64 [p132_04; p132_04]);
            ("Low", float64 [p127_85; p127_85]);
            ("Open", float64 [p132_04; p127_85]);
            ("Volume", int64 [75135100; 137564700])]).

Definition sample_multi : DataFrame sample_price :=
  history [may_3; may_4]
    (MultiIndex [(("Close", "AAPL"), float64 [p132_04; p127_85]);
                 (("High", "AAPL"), float64 [p132_04; p132_04]);
                 (("Low", "AAPL"), float64 [p127_85; p127_85]);
                 (("Open", "AAPL"), float64 [p132_04; p127_85]);
                 (("Volume", "AAPL"), int64 [75135100; 137564700])]).

(** Two-level columns without a [Close] field. *)
Definition sample_no_close : DataFrame sample_price :=
  history [may_3; may_4]
    (MultiIndex [(("Open", "AAPL"), float64 [p132_04; p127_85]);
                 (("Volume", "AAPL"), int64 [75135100; 137564700])]).

(** No rows: what the provider returns when it has no data. *)
Definition sample_empty : DataFrame sample_price :=
  history []
    (Index [("Close", float64 []); ("High", float64 []); ("Low", float64 []);
            ("Open", float64 []); ("Volume", int64 [])]).

Definition sample_provider (df : DataFrame sample_price)
  : string -> string -> result (DataFrame sample_price) :=
  fun _ _ => Ok df.

Definition sample_argv : list string := ["FetchData.py"; "AAPL"; "2021-05-03"].

(** The days a 64-bit count of nanoseconds can fall on. *)
Definition first_day : Z := -106752.
Definition last_day : Z := 106751.

(** ** Vocabulary of the further properties *)

(** The name of the row index of a frame. *)
Definition index_name {F : Type} (df : DataFrame F) : option string :=
  match index df with
  | RangeIndex _ => None
  | DatetimeIndex name _ => name
  end.

(** The field names of a frame: the names of flat columns, the first level
    of two-level ones. *)
Definition fields {F : Type} (df : DataFrame F) : list string :=
  match columns df with
  | Index cols => map fst cols
  | MultiIndex cols => map (fun c => fst (fst c)) cols
  end.

(** The Series of a frame, in column order. *)
Definition series {F : Type} (df : DataFrame F) : list (Series F) :=
  match columns df with
  | Index cols => map snd cols
  | MultiIndex cols => map snd cols
  end.

(** A run that ended on an uncaught exception: nothing was printed, the
    interpreter exits with status 1. *)
Definition failed : Process := {| stdout := ""; exit_status := 1 |}.

(** Flat columns put under the symbol [sym] of a second level. *)
Definition under_symbol {F : Type} (sym : string) (cols : list (string * Series F))
  : list ((string * string) * Series F) :=
  map (fun c => ((fst c, sym), snd c)) cols.

(** A character other than the line feed and the carriage return. *)
Definition inline (c : ascii) : bool :=
  negb (Ascii.eqb c newline) && negb (Ascii.eqb c "013").

(** The characters a number of the JSON grammar is made of. *)
Definition number_char (c : ascii) : bool :=
  is_digit c || Ascii.eqb c "-" || Ascii.eqb c "+" || Ascii.eqb c "."
  || Ascii.eqb c "e" || Ascii.eqb c "E".

(** ** More sample data *)

(** A provider that raises instead of answering. *)
Definition sample_offline : string -> string -> result (DataFrame sample_price) :=
  fun _ _ => Raise (DownloadError "offline").

(** Flat columns without a [Close] field. *)
Definition sample_flat_no_close : DataFrame sample_price :=
  history [may_3; may_4]
    (Index [("Open", float64 [p132_04; p127_85]);
            ("Volume", int64 [75135100; 137564700])]).

(** A frame whose index has no name. *)
Definition sample_unnamed : DataFrame sample_price :=
  {| index := DatetimeIndex None [may_3; may_4];
     columns := Index [("Close", float64 [p132_04; p127_85])] |}.

(** A history with a field called [Date]. *)
Definition sample_date_field : DataFrame sample_price :=
  history [may_3; may_4]
    (Index [("Date", object [Some "Mon"; Some "Tue"]);
            ("Close", float64 [p132_04; p127_85])]).

(** A history with two columns called [Close]. *)
Definition sample_two_close : DataFrame sample_price :=
  history [may_3; may_4]
    (Index [("Close", float64 [p132_04; p127_85]);
            ("Close", float64 [p127_85; p132_04])]).

(** A history whose second timestamp is missing. *)
Definition sample_gap : DataFrame sample_price :=
  history [may_3; iNaT] (Index [("Close", float64 [p132_04; pNaN])]).

(** The flat sample after [reset_index]. *)
Definition sample_reset : DataFrame sample_price :=
  {| index := RangeIndex 2;
     columns := Index [("Date", datetime64 [may_3; may_4]);
                       ("Close", float64 [p132_04; p127_85]);
                       ("High", float64 [p132_04; p132_04]);
                       ("Low", float64 [p127_85; p127_85]);
                       ("Open", float64 [p132_04; p127_85]);
                       ("Volume", int64 [75135100; 137564700])] |}.

(** ** Frames as pandas holds them *)

(** A [datetime64[ns]] cell is a signed 64-bit value: a timestamp or NaT. *)
Definition is_datetime64 (t : Z) : bool := (iNaT <=? t) && (t <? 2 ^ 63).

(** A column of a frame of [n] rows has one cell per row, and its
    datetimes are 64-bit values. *)
Definition series_ok {F : Type} (n : nat) (s : Series F) : bool :=
  Nat.eqb (len s) n
  && match s with
     | datetime64 v => forallb is_datetime64 v
     | _ => true
     end.

(** What holds of every frame of pandas, and is not seen in the types of
    this file, where a 64-bit cell is an integer and a column a list: the
    datetimes of the index and of the columns are 64-bit values and every
    column has as many cells as the frame has rows. *)
Definition frame_ok {F : Type} (df : DataFrame F) : bool :=
  match index df with
  | RangeIndex _ => true
  | DatetimeIndex _ v => forallb is_datetime64 v
  end
  && forallb (series_ok (nrows df)) (series df).

(** The dates the records carry, in the order of the records; a record
    whose date does not decode carries none. *)
Definition dates_of (recs : list Json.json) : list Calendar.date :=
  flat_map (fun r => match record_date r with
                     | Some d => [d]
                     | None => []
                     end) recs.

(** A timestamp that is there: any value but NaT. *)
Definition notna (t : Z) : bool := negb (t =? iNaT).

(** * Properties *)

(** ** Calendar *)

Example civil_epoch : Calendar.civil_from_days 0 = (1970, 1, 1).
Proof. reflexivity. Qed.

Example civil_leap_day : Calendar.civil_from_days 18321 = (2020, 2, 29).
Proof. reflexivity. Qed.

Example civil_first_day : Calendar.civil_from_days first_day = (1677, 9, 21).
Proof. reflexivity. Qed.

Example civil_last_day : Calendar.civil_from_days last_day = (2262, 4, 11).
Proof. reflexivity. Qed.

Example strftime_may_3 : strftime_Ymd (may_3 + 86399999999999) = Some "2021-05-03".
Proof. reflexivity. Qed.

Example strftime_before_epoch : strftime_Ymd (-1) = Some "1969-12-31".
Proof. reflexivity. Qed.

Example strftime_NaT : strftime_Ymd iNaT = None.
Proof. reflexivity. Qed.

Example str_int_samples :
  str_int (-1203) = "-1203" /\ str_int 0 = "0" /\ str_int 1620000000000 = "1620000000000".
Proof. repeat split; reflexivity. Qed.

Lemma timestamp_day t :
  is_timestamp t = true -> first_day <= t / day_ns <= last_day.
Proof.
  unfold is_timestamp, iNaT, day_ns, first_day, last_day. intros H.
  apply andb_true_iff in H as [H1 H2].
  apply Z.ltb_lt in H1. apply Z.ltb_lt in H2.
  change (2 ^ 63) with 9223372036854775808 in *.
  pose proof (Z.div_le_mono (-9223372036854775807) t 86400000000000 eq_refl ltac:(lia)) as Hlo.
  pose proof (Z.div_le_mono t 9223372036854775807 86400000000000 eq_refl ltac:(lia)) as Hhi.
  change (-9223372036854775807 / 86400000000000) with (-106752) in Hlo.
  change (9223372036854775807 / 86400000000000) with 106751 in Hhi.
  lia.
Qed.

Module CalendarFacts.
Import Calendar.

Lemma is_leap_spec y :
  is_leap y = true <-> (y mod 4 = 0 /\ y mod 100 <> 0) \/ y mod 400 = 0.
Proof.
  unfold is_leap. rewrite orb_true_iff, andb_true_iff, negb_true_iff.
  rewrite !Z.eqb_eq, Z.eqb_neq. tauto.
Qed.

Lemma year_length_step y :
  days_before_year (y + 1) = days_before_year y + year_length y.
Proof.
  unfold days_before_year, year_length.
  destruct (is_leap y) eqn:L.
  - apply is_leap_spec in L. Z.div_mod_to_equations; lia.
  - assert (~ ((y mod 4 = 0 /\ y mod 100 <> 0) \/ y mod 400 = 0)) as N
      by (rewrite <- is_leap_spec, L; discriminate).
    Z.div_mod_to_equations; lia.
Qed.

Lemma yearsdays_spec z :
  let (y, doy) := days_to_yearsdays z in
  z = days_before_year y + doy /\ 0 <= doy < year_length y.
Proof.
  unfold days_to_yearsdays, days_before_year, year_length.
  repeat match goal with
  | |- context [if ?a <? ?b then _ else _] => destruct (Z.ltb_spec a b)
  end.
  all: match goal with |- context [is_leap ?y] => destruct (is_leap y) eqn:L end.
  all: try (apply is_leap_spec in L).
  all: try match goal with
    | L : is_leap ?y = false |- _ =>
      assert (~ ((y mod 4 = 0 /\ y mod 100 <> 0) \/ y mod 400 = 0))
        by (rewrite <- is_leap_spec, L; discriminate); clear L
    end.
  all: (Z.div_mod_to_equations; lia).
Qed.

Lemma days_before_year_mono a b : a <= b -> days_before_year a <= days_before_year b.
Proof. unfold days_before_year. intros H. Z.div_mod_to_equations; lia. Qed.

Lemma month_day_spec (leap : bool) doy :
  0 <= doy < (if leap then 366 else 365) ->
  let (m, d) := month_day (month_lengths leap) 1 doy in
  1 <= m <= 12 /\ 1 <= d <= nth (Z.to_nat (m - 1)) (month_lengths leap) 0.
Proof.
  intros H. destruct leap; cbn [month_day month_lengths].
  all: repeat match goal with
  | |- context [if ?a <? ?b then _ else _] => destruct (Z.ltb_spec a b)
  end.
  all: try lia.
  all: split; [lia|].
  all: match goal with
       | |- context [nth ?n ?l ?d] =>
           let v := eval vm_compute in (nth n l d) in change (nth n l d) with v
       end; lia.
Qed.

Lemma month_day_mono (leap : bool) a b :
  0 <= a <= b -> b < (if leap then 366 else 365) ->
  let (m1, d1) := month_day (month_lengths leap) 1 a in
  let (m2, d2) := month_day (month_lengths leap) 1 b in
  m1 < m2 \/ (m1 = m2 /\ d1 <= d2).
Proof.
  intros H Hb. destruct leap; cbn [month_day month_lengths].
  all: repeat match goal with
  | |- context [if ?a <? ?b then _ else _] => destruct (Z.ltb_spec a b); try lia
  end.
Qed.

Lemma civil_valid z :
  first_day <= z <= last_day ->
  let '(y, m, d) := civil_from_days z in
  1677 <= y <= 2262 /\ valid (y, m, d) = true.
Proof.
  intros Hz. unfold civil_from_days.
  pose proof (yearsdays_spec z) as Hs.
  destruct (days_to_yearsdays z) as [y doy]. destruct Hs as [Hd Hr].
  pose proof (month_day_spec (is_leap y) doy) as Hm.
  unfold year_length in Hr.
  destruct (month_day (month_lengths (is_leap y)) 1 doy) as [m d].
  specialize (Hm Hr).
  assert (1677 <= y <= 2262) as Hy.
  { unfold first_day, last_day, days_before_year in *.
    destruct (is_leap y); Z.div_mod_to_equations; lia. }
  split; [exact Hy|].
  unfold valid, days_in_month.
  repeat (apply andb_true_iff; split); apply Z.leb_le; lia.
Qed.

Lemma civil_mono a b :
  a <= b -> leb (civil_from_days a) (civil_from_days b) = true.
Proof.
  intros Hab. unfold civil_from_days.
  pose proof (yearsdays_spec a) as Ha. pose proof (yearsdays_spec b) as Hb.
  destruct (days_to_yearsdays a) as [y1 n1], (days_to_yearsdays b) as [y2 n2].
  destruct Ha as [Ea Ra], Hb as [Eb Rb].
  assert (y1 <= y2) as Hy.
  { destruct (Z.le_gt_cases y1 y2) as [|Hgt]; [assumption|exfalso].
    pose proof (days_before_year_mono (y2 + 1) y1 ltac:(lia)) as Hm.
    rewrite year_length_step in Hm. lia. }
  destruct (Z.eq_dec y1 y2) as [->|Hne].
  - pose proof (month_day_mono (is_leap y2) n1 n2 ltac:(lia)) as Hm.
    unfold year_length in Rb.
    specialize (Hm ltac:(lia)).
    destruct (month_day (month_lengths (is_leap y2)) 1 n1) as [m1 d1].
    destruct (month_day (month_lengths (is_leap y2)) 1 n2) as [m2 d2].
    unfold leb. rewrite Z.ltb_irrefl, Z.eqb_refl. simpl.
    destruct Hm as [Hm|[-> Hd]].
    + apply Z.ltb_lt in Hm. rewrite Hm. reflexivity.
    + rewrite Z.ltb_irrefl, Z.eqb_refl. simpl. apply Z.leb_le. exact Hd.
  - destruct (month_day (month_lengths (is_leap y1)) 1 n1) as [m1 d1].
    destruct (month_day (month_lengths (is_leap y2)) 1 n2) as [m2 d2].
    unfold leb. assert ((y1 <? y2) = true) as -> by (apply Z.ltb_lt; lia). reflexivity.
Qed.

Lemma digit_cases n :
  exists k, (k < 10)%nat /\ digit n = ascii_of_nat (48 + k) /\ n mod 10 = Z.of_nat k.
Proof.
  exists (Z.to_nat (n mod 10)).
  pose proof (Z.mod_pos_bound n 10 eq_refl).
  repeat split; [lia | lia].
Qed.

Lemma digit_is_digit n : is_digit (digit n) = true.
Proof.
  destruct (digit_cases n) as (k & Hk & -> & _).
  do 10 (destruct k as [|k]; [reflexivity|]). exfalso; lia.
Qed.

Lemma digit_val_digit n : digit_val (digit n) = n mod 10.
Proof.
  destruct (digit_cases n) as (k & Hk & -> & ->).
  do 10 (destruct k as [|k]; [reflexivity|]). exfalso; lia.
Qed.

Lemma pad2_value n : 0 <= n <= 99 -> 10 * ((n / 10) mod 10) + n mod 10 = n.
Proof. intros H. Z.div_mod_to_equations; lia. Qed.

Lemma pad4_value n :
  0 <= n <= 9999 ->
  1000 * ((n / 1000) mod 10) + 100 * ((n / 100) mod 10)
  + 10 * ((n / 10) mod 10) + n mod 10 = n.
Proof. intros H. Z.div_mod_to_equations; lia. Qed.

Lemma days_in_month_le y m : days_in_month y m <= 31.
Proof.
  unfold days_in_month, month_lengths.
  generalize (Z.to_nat (m - 1)) as k. intros k.
  destruct (is_leap y);
  do 12 (destruct k as [|k]; [cbn; lia|]); destruct k; cbn; lia.
Qed.

Lemma fromisoformat_isoformat d :
  valid d = true ->
  fromisoformat (isoformat d) = Some d.
Proof.
  destruct d as [[y m] dd]. intros Hv.
  pose proof Hv as Hv'. unfold valid in Hv'.
  repeat (apply andb_true_iff in Hv' as [Hv' ?]).
  repeat match goal with H : (_ <=? _) = true |- _ => apply Z.leb_le in H end.
  pose proof (days_in_month_le y m).
  unfold fromisoformat, isoformat, pad4, pad2.
  cbn [append list_ascii_of_string forallb].
  rewrite !digit_is_digit, !digit_val_digit. cbn [andb Ascii.eqb Bool.eqb].
  rewrite pad4_value, !pad2_value by lia.
  rewrite Hv. reflexivity.
Qed.

End CalendarFacts.

(** ** JSON: what was written reads back *)

Module JsonFacts.
Import Json.

Lemma append_assoc (a b c : string) : (a ++ b) ++ c = a ++ b ++ c.
Proof. induction a as [|x a IH]; simpl; [reflexivity | now rewrite IH]. Qed.

Lemma append_nil_r (a : string) : a ++ "" = a.
Proof. induction a as [|x a IH]; simpl; [reflexivity | now rewrite IH]. Qed.

Lemma length_append (a b : string) :
  String.length (a ++ b) = (String.length a + String.length b)%nat.
Proof. induction a as [|x a IH]; simpl; [reflexivity | now rewrite IH]. Qed.

(** *** Numbers *)

Lemma span_consumed p s : s = fst (span p s) ++ snd (span p s).
Proof.
  induction s as [|c r IH]; simpl; [reflexivity|].
  destruct (p c); [|reflexivity].
  destruct (span p r) as [a b]. simpl in *. now rewrite <- IH.
Qed.

Lemma span_app p s rest :
  match rest with EmptyString => true | String c _ => negb (p c) end = true ->
  span p (s ++ rest) = (fst (span p s), snd (span p s) ++ rest).
Proof.
  intros Hb. induction s as [|c r IH]; simpl.
  - destruct rest as [|c r]; [reflexivity|].
    simpl. apply negb_true_iff in Hb. now rewrite Hb.
  - destruct (p c); [|reflexivity].
    rewrite IH. destruct (span p r); reflexivity.
Qed.

Lemma boundary_not_digit rest :
  number_boundary rest = true ->
  match rest with EmptyString => true | String c _ => negb (is_digit c) end = true.
Proof.
  destruct rest as [|c r]; [reflexivity|]. unfold number_boundary.
  rewrite !negb_orb, !andb_true_iff. tauto.
Qed.

Lemma lex_int_app s a b rest :
  number_boundary rest = true ->
  lex_int s = Some (a, b) -> lex_int (s ++ rest) = Some (a, b ++ rest).
Proof.
  intros Hb. destruct s as [|c r]; simpl; [discriminate|].
  destruct (Ascii.eqb c "0"); [intros [= <- <-]; reflexivity|].
  destruct (is_digit c); [|discriminate].
  rewrite (span_app _ _ _ (boundary_not_digit _ Hb)).
  destruct (span is_digit r); simpl. intros [= <- <-]. reflexivity.
Qed.

Lemma lex_frac_app s a b rest :
  number_boundary rest = true ->
  lex_frac s = Some (a, b) -> lex_frac (s ++ rest) = Some (a, b ++ rest).
Proof.
  intros Hb. destruct s as [|c r]; simpl.
  - intros [= <- <-]. destruct rest as [|c r]; [reflexivity|].
    simpl. unfold number_boundary in Hb. rewrite !negb_orb, !andb_true_iff in Hb.
    destruct Hb as [[[_ Hd] _] _]. apply negb_true_iff in Hd. now rewrite Hd.
  - destruct (Ascii.eqb c "."); [|intros [= <- <-]; reflexivity].
    rewrite (span_app _ _ _ (boundary_not_digit _ Hb)).
    destruct (span is_digit r) as [ds r']; simpl.
    destruct ds; [discriminate|]. intros [= <- <-]. reflexivity.
Qed.

Lemma lex_exp_app s a b rest :
  number_boundary rest = true ->
  lex_exp s = Some (a, b) -> lex_exp (s ++ rest) = Some (a, b ++ rest).
Proof.
  intros Hb. destruct s as [|c r]; simpl.
  - intros [= <- <-]. destruct rest as [|c r]; [reflexivity|].
    simpl. unfold number_boundary in Hb. rewrite !negb_orb, !andb_true_iff in Hb.
    destruct Hb as [[[_ _] He] HE]. apply negb_true_iff in He, HE. now rewrite He, HE.
  - destruct (Ascii.eqb c "e" || Ascii.eqb c "E"); [|intros [= <- <-]; reflexivity].
    destruct r as [|c' r'].
    + simpl. discriminate.
    + simpl. destruct (Ascii.eqb c' "-" || Ascii.eqb c' "+").
      * rewrite (span_app _ _ _ (boundary_not_digit _ Hb)).
        destruct (span is_digit r') as [ds r'']; simpl.
        destruct ds; [discriminate|]. intros [= <- <-]. reflexivity.
      * change (String c' (r' ++ rest)) with (String c' r' ++ rest).
        rewrite (span_app _ _ _ (boundary_not_digit _ Hb)).
        destruct (span is_digit (String c' r')) as [ds r'']; simpl.
        destruct ds; [discriminate|]. intros [= <- <-]. reflexivity.
Qed.

Lemma lex_unsigned_app s a b rest :
  number_boundary rest = true ->
  lex_unsigned s = Some (a, b) -> lex_unsigned (s ++ rest) = Some (a, b ++ rest).
Proof.
  intros Hb. unfold lex_unsigned.
  destruct (lex_int s) as [[i s2]|] eqn:Hi; [|discriminate].
  rewrite (lex_int_app _ _ _ _ Hb Hi).
  destruct (lex_frac s2) as [[f s3]|] eqn:Hf; [|discriminate].
  rewrite (lex_frac_app _ _ _ _ Hb Hf).
  destruct (lex_exp s3) as [[e s4]|] eqn:He; [|discriminate].
  rewrite (lex_exp_app _ _ _ _ Hb He).
  intros [= <- <-]. reflexivity.
Qed.

Lemma lex_number_app s a b rest :
  number_boundary rest = true ->
  lex_number s = Some (a, b) -> lex_number (s ++ rest) = Some (a, b ++ rest).
Proof.
  intros Hb. unfold lex_number.
  destruct s as [|c r].
  - simpl. discriminate.
  - cbn [lex_sign append]. destruct (Ascii.eqb c "-").
    + destruct (lex_unsigned r) as [[u r']|] eqn:Hu; [|discriminate].
      rewrite (lex_unsigned_app _ _ _ _ Hb Hu). intros [= <- <-]. reflexivity.
    + destruct (lex_unsigned (String c r)) as [[u r']|] eqn:Hu; [|discriminate].
      change (String c (r ++ rest)) with (String c r ++ rest).
      rewrite (lex_unsigned_app _ _ _ _ Hb Hu). intros [= <- <-]. reflexivity.
Qed.

Lemma lex_int_consumed s a b : lex_int s = Some (a, b) -> s = a ++ b.
Proof.
  destruct s as [|c r]; simpl; [discriminate|].
  destruct (Ascii.eqb_spec c "0") as [->|_]; [intros [= <- <-]; reflexivity|].
  destruct (is_digit c); [|discriminate].
  pose proof (span_consumed is_digit r) as Hs.
  destruct (span is_digit r). intros [= <- <-]. simpl in *. now rewrite <- Hs.
Qed.

Lemma lex_frac_consumed s a b : lex_frac s = Some (a, b) -> s = a ++ b.
Proof.
  destruct s as [|c r]; simpl; [intros [= <- <-]; reflexivity|].
  destruct (Ascii.eqb c "."); [|intros [= <- <-]; reflexivity].
  pose proof (span_consumed is_digit r) as Hs.
  destruct (span is_digit r) as [ds r']. destruct ds; [discriminate|].
  intros [= <- <-]. simpl in *. now rewrite <- Hs.
Qed.

Lemma lex_exp_consumed s a b : lex_exp s = Some (a, b) -> s = a ++ b.
Proof.
  destruct s as [|c r]; simpl; [intros [= <- <-]; reflexivity|].
  destruct (Ascii.eqb c "e" || Ascii.eqb c "E"); [|intros [= <- <-]; reflexivity].
  assert (r = fst (lex_exp_sign r) ++ snd (lex_exp_sign r)) as Hsg.
  { destruct r as [|c' r']; simpl; [reflexivity|].
    destruct (Ascii.eqb c' "-" || Ascii.eqb c' "+"); reflexivity. }
  destruct (lex_exp_sign r) as [sg r1]. simpl in Hsg.
  pose proof (span_consumed is_digit r1) as Hs.
  destruct (span is_digit r1) as [ds r']. destruct ds; [discriminate|].
  intros [= <- <-]. simpl in *. rewrite Hsg at 1. rewrite Hs at 1.
  now rewrite append_assoc.
Qed.

Lemma lex_unsigned_consumed s a b : lex_unsigned s = Some (a, b) -> s = a ++ b.
Proof.
  unfold lex_unsigned.
  destruct (lex_int s) as [[i s2]|] eqn:Hi; [|discriminate].
  destruct (lex_frac s2) as [[f s3]|] eqn:Hf; [|discriminate].
  destruct (lex_exp s3) as [[e s4]|] eqn:He; [|discriminate].
  intros [= <- <-].
  apply lex_int_consumed in Hi. apply lex_frac_consumed in Hf.
  apply lex_exp_consumed in He. subst s3 s2 s.
  now rewrite !append_assoc.
Qed.

Lemma lex_number_consumed s a b : lex_number s = Some (a, b) -> s = a ++ b.
Proof.
  unfold lex_number.
  assert (s = fst (lex_sign s) ++ snd (lex_sign s)) as Hsg.
  { destruct s as [|c r]; simpl; [reflexivity|].
    destruct (Ascii.eqb_spec c "-") as [->|_]; reflexivity. }
  destruct (lex_sign s) as [sg s1]. simpl in Hsg.
  destruct (lex_unsigned s1) as [[u r]|] eqn:Hu; [|discriminate].
  intros [= <- <-]. apply lex_unsigned_consumed in Hu. subst s1.
  rewrite Hsg at 1. now rewrite append_assoc.
Qed.

Lemma is_number_lex lit :
  is_number lit = true -> lex_number lit = Some (lit, "").
Proof.
  unfold is_number. destruct (lex_number lit) as [[a b]|] eqn:H; [|discriminate].
  destruct b; [|discriminate]. intros _.
  apply lex_number_consumed in H. rewrite append_nil_r in H. now subst.
Qed.

Lemma is_number_head lit :
  is_number lit = true ->
  exists c r, lit = String c r /\ (c = "-"%char \/ is_digit c = true).
Proof.
  unfold is_number, lex_number. destruct lit as [|c r]; [discriminate|].
  intros H. exists c, r. split; [reflexivity|].
  cbn [lex_sign] in H. destruct (Ascii.eqb_spec c "-") as [->|_]; [now left|right].
  unfold lex_unsigned in H. cbn [lex_int] in H.
  destruct (Ascii.eqb_spec c "0") as [->|_]; [reflexivity|].
  destruct (is_digit c); [reflexivity|discriminate].
Qed.

(** Tests on known characters are settled by evaluation. *)
Ltac char_tests :=
  repeat match goal with
  | |- context [is_ws ?c] =>
      let v := eval vm_compute in (is_ws c) in
      lazymatch v with
      | true => change (is_ws c) with true
      | false => change (is_ws c) with false
      end
  | |- context [Ascii.eqb ?a ?b] =>
      let v := eval vm_compute in (Ascii.eqb a b) in
      lazymatch v with
      | true => change (Ascii.eqb a b) with true
      | false => change (Ascii.eqb a b) with false
      end
  end; cbn iota.

(** *** Strings *)

Lemma lex_chars_escape_char c r :
  lex_chars (escape_char c ++ r)
  = match lex_chars r with
    | Some (t, rest) => Some (String c t, rest)
    | None => None
    end.
Proof.
  destruct c as [b0 b1 b2 b3 b4 b5 b6 b7].
  destruct b0, b1, b2, b3, b4, b5, b6, b7; reflexivity.
Qed.

Lemma lex_chars_escape s rest :
  lex_chars (escape s ++ String dquote rest) = Some (s, rest).
Proof.
  induction s as [|c r IH]; [reflexivity|].
  cbn [escape]. now rewrite append_assoc, lex_chars_escape_char, IH.
Qed.

Lemma quote_app s rest :
  quote s ++ rest = String dquote (escape s ++ String dquote rest).
Proof. unfold quote. cbn [append]. now rewrite append_assoc. Qed.

(** *** Scalars *)

Lemma number_head_dispatch c :
  c = "-"%char \/ is_digit c = true ->
  is_ws c = false /\ Ascii.eqb c "[" = false /\ Ascii.eqb c "{" = false
  /\ Ascii.eqb c dquote = false /\ Ascii.eqb c "n" = false
  /\ Ascii.eqb c "t" = false /\ Ascii.eqb c "f" = false.
Proof.
  intros [->|H]; [repeat split; reflexivity|].
  repeat split.
  - unfold is_ws. unfold is_digit in H. apply andb_true_iff in H as [H1 H2].
    apply Nat.leb_le in H1.
    repeat match goal with
    | |- context [(?a =? ?b)%nat] => destruct (Nat.eqb_spec a b); [exfalso; lia|]
    end. reflexivity.
  - destruct (Ascii.eqb_spec c "["); [subst; discriminate|reflexivity].
  - destruct (Ascii.eqb_spec c "{"); [subst; discriminate|reflexivity].
  - destruct (Ascii.eqb_spec c dquote); [subst; discriminate|reflexivity].
  - destruct (Ascii.eqb_spec c "n"); [subst; discriminate|reflexivity].
  - destruct (Ascii.eqb_spec c "t"); [subst; discriminate|reflexivity].
  - destruct (Ascii.eqb_spec c "f"); [subst; discriminate|reflexivity].
Qed.

Lemma parse_scalar fuel v rest :
  scalar v = true -> number_boundary rest = true ->
  parse_value (S fuel) (dumps v ++ rest) = Some (v, rest).
Proof.
  intros Hv Hb. destruct v as [|b|lit|s|l|l]; try discriminate; cbn [scalar dumps] in *.
  - reflexivity.
  - destruct (is_number_head lit Hv) as (c & r & -> & Hc).
    destruct (number_head_dispatch c Hc) as (W & A & O & Q & N & T & Fa).
    cbn [parse_value append skip_ws]. rewrite W, A, O, Q, N, T, Fa.
    change (String c (r ++ rest)) with (String c r ++ rest).
    rewrite (lex_number_app _ _ _ _ Hb (is_number_lex _ Hv)). reflexivity.
  - rewrite quote_app. cbn [parse_value skip_ws].
    char_tests.
    now rewrite lex_chars_escape.
Qed.

(** *** Objects of scalars *)

Lemma member_text_app kv rest :
  member_text kv ++ rest
  = String dquote (escape (fst kv) ++ String dquote (String ":" (dumps (snd kv) ++ rest))).
Proof.
  unfold member_text. rewrite append_assoc, quote_app.
  now rewrite append_assoc.
Qed.

Lemma parse_members_head fuel k v rest :
  parse_members (S fuel) (member_text (k, v) ++ rest)
  = match parse_value fuel (dumps v ++ rest) with
    | Some (v', r3) =>
        match skip_ws r3 with
        | String c' r4 =>
            if Ascii.eqb c' "," then
              match parse_members fuel r4 with
              | Some (l, rest') => Some ((k, v') :: l, rest')
              | None => None
              end
            else if Ascii.eqb c' "}" then Some ([(k, v')], r4)
            else None
        | EmptyString => None
        end
    | None => None
    end.
Proof.
  rewrite member_text_app. cbn [fst snd].
  cbn [parse_members skip_ws].
  char_tests.
  rewrite lex_chars_escape. cbn [skip_ws].
  char_tests.
  reflexivity.
Qed.

Lemma parse_members_flat members : forall fuel rest,
  members <> [] ->
  forallb (fun kv => scalar (snd kv)) members = true ->
  (List.length members <= fuel)%nat ->
  parse_members (S fuel)
    (String.concat "," (map member_text members) ++ String "}" rest)
  = Some (members, rest).
Proof.
  induction members as [|[k v] ms IH]; intros fuel rest Hne Hall Hfuel; [congruence|].
  cbn [forallb fst snd] in Hall. apply andb_true_iff in Hall as [Hv Hms].
  destruct fuel as [|fuel]; [simpl in Hfuel; lia|].
  destruct ms as [|m ms'].
  - cbn [map String.concat].
    rewrite parse_members_head.
    rewrite parse_scalar; [reflexivity | exact Hv | reflexivity].
  - remember (m :: ms') as ms eqn:Ems.
    assert (String.concat "," (map member_text ((k, v) :: ms))
            = member_text (k, v) ++ "," ++ String.concat "," (map member_text ms)) as ->.
    { subst ms. reflexivity. }
    rewrite append_assoc.
    rewrite parse_members_head.
    cbn [append].
    rewrite parse_scalar; [| exact Hv | reflexivity].
    cbn [skip_ws]. char_tests.
    rewrite (IH fuel rest); [reflexivity| subst ms; discriminate | exact Hms |].
    simpl in Hfuel. lia.
Qed.

Lemma dumps_object members :
  dumps (JObject members) = "{" ++ String.concat "," (map member_text members) ++ "}".
Proof. reflexivity. Qed.

Lemma skip_ws_head c r : is_ws c = false -> skip_ws (String c r) = String c r.
Proof. intros H. simpl. now rewrite H. Qed.

Lemma parse_array_eq fuel r :
  parse_value (S fuel) (String "[" r)
  = match skip_ws r with
    | String c' r' =>
        if Ascii.eqb c' "]" then Some (JArray [], r')
        else
          match parse_elements fuel r with
          | Some (l, rest) => Some (JArray l, rest)
          | None => None
          end
    | EmptyString => None
    end.
Proof. reflexivity. Qed.

Lemma parse_object_eq fuel r :
  parse_value (S fuel) (String "{" r)
  = match skip_ws r with
    | String c' r' =>
        if Ascii.eqb c' "}" then Some (JObject [], r')
        else
          match parse_members fuel r with
          | Some (l, rest) => Some (JObject l, rest)
          | None => None
          end
    | EmptyString => None
    end.
Proof. reflexivity. Qed.

Lemma parse_flat_object k v fuel rest :
  flat_object k v = true -> (k < fuel)%nat ->
  parse_value (S fuel) (dumps v ++ rest) = Some (v, rest).
Proof.
  destruct v as [| | | | |members]; try discriminate. cbn [flat_object].
  intros H Hfuel. apply andb_true_iff in H as [H Hall].
  apply andb_true_iff in H as [Hne Hk].
  apply negb_true_iff, Nat.eqb_neq in Hne. apply Nat.leb_le in Hk.
  rewrite dumps_object. rewrite !append_assoc. cbn [append].
  destruct fuel as [|fuel]; [lia|].
  destruct members as [|[k0 v0] ms]; [simpl in Hne; lia|].
  remember ((k0, v0) :: ms) as members eqn:Em.
  assert (exists t, String.concat "," (map member_text members) ++ String "}" rest
                    = String dquote t) as [t Ht].
  { subst members. destruct ms; cbn [map String.concat].
    - rewrite member_text_app. eauto.
    - rewrite append_assoc, member_text_app. eauto. }
  rewrite parse_object_eq.
  assert (skip_ws (String.concat "," (map member_text members) ++ String "}" rest)
          = String dquote t) as -> by (rewrite Ht; now apply skip_ws_head).
  char_tests.
  rewrite parse_members_flat; [reflexivity | subst; discriminate | exact Hall | lia].
Qed.

Lemma parse_elements_eq fuel s :
  parse_elements (S fuel) s
  = match parse_value fuel s with
    | Some (v, r) =>
        match skip_ws r with
        | String c r' =>
            if Ascii.eqb c "," then
              match parse_elements fuel r' with
              | Some (l, rest) => Some (v :: l, rest)
              | None => None
              end
            else if Ascii.eqb c "]" then Some ([v], r')
            else None
        | EmptyString => None
        end
    | None => None
    end.
Proof. reflexivity. Qed.

Lemma parse_elements_flat k items : forall fuel rest,
  items <> [] ->
  forallb (flat_object k) items = true ->
  (List.length items + k < fuel)%nat ->
  parse_elements (S fuel) (String.concat "," (map dumps items) ++ String "]" rest)
  = Some (items, rest).
Proof.
  induction items as [|v vs IH]; intros fuel rest Hne Hall Hfuel; [congruence|].
  cbn [forallb] in Hall. apply andb_true_iff in Hall as [Hv Hvs].
  destruct fuel as [|fuel]; [lia|].
  destruct vs as [|v' vs'].
  - cbn [map String.concat]. rewrite parse_elements_eq.
    rewrite (parse_flat_object k v fuel _ Hv) by (simpl in Hfuel; lia).
    reflexivity.
  - remember (v' :: vs') as vs eqn:Evs.
    assert (String.concat "," (map dumps (v :: vs))
            = dumps v ++ "," ++ String.concat "," (map dumps vs)) as ->.
    { subst vs. reflexivity. }
    rewrite !append_assoc. rewrite parse_elements_eq.
    rewrite (parse_flat_object k v fuel _ Hv) by (simpl in Hfuel; lia).
    cbn [append skip_ws]. char_tests.
    rewrite (IH fuel rest); [reflexivity | subst vs; discriminate | exact Hvs |].
    simpl in Hfuel. lia.
Qed.

Lemma concat_length_ge c (l : list string) :
  Forall (fun s => (c <= String.length s)%nat) l ->
  (c * List.length l <= String.length (String.concat "," l))%nat.
Proof.
  induction 1 as [|s l Hs Hl IH]; simpl; [lia|].
  destruct l as [|s' l']; [simpl; lia|].
  rewrite !length_append. simpl in *. lia.
Qed.

Lemma flat_object_text k v :
  flat_object k v = true -> (4 <= String.length (dumps v))%nat.
Proof.
  destruct v as [| | | | |members]; try discriminate. cbn [flat_object].
  intros H. apply andb_true_iff in H as [H _]. apply andb_true_iff in H as [Hne _].
  destruct members as [|kv ms]; [discriminate|].
  rewrite dumps_object.
  destruct ms; cbn [map String.concat]; unfold member_text, quote;
    cbn [append String.length]; rewrite ?length_append; cbn [String.length]; lia.
Qed.

(** An array of objects of one or two scalars reads back from its text, also
    when blanks follow it. *)
Lemma loads_dumps_records items tail :
  forallb (flat_object 2) items = true ->
  skip_ws tail = "" ->
  loads (dumps (JArray items) ++ tail) = Some (JArray items).
Proof.
  intros Hall Htail. unfold loads.
  destruct items as [|v vs].
  - cbn [dumps map String.concat append String.length].
    rewrite parse_array_eq, skip_ws_head by reflexivity.
    char_tests.
    now rewrite Htail.
  - remember (v :: vs) as items eqn:Ei.
    assert (4 * List.length items
            <= String.length (String.concat "," (map dumps items)))%nat as Hlen.
    { rewrite <- (length_map dumps items) at 1. apply concat_length_ge.
      apply Forall_map, Forall_forall. intros x Hx.
      apply (flat_object_text 2). rewrite forallb_forall in Hall. now apply Hall. }
    assert (exists t, String.concat "," (map dumps items) ++ String "]" tail
                      = String "{" t) as [t Ht].
    { subst items. cbn [forallb] in Hall. apply andb_true_iff in Hall as [Hv _].
      destruct v; try discriminate.
      destruct vs; cbn [map String.concat]; rewrite dumps_object;
        rewrite ?append_assoc; cbn [append]; eauto. }
    assert (1 <= List.length items)%nat as Hpos by (subst items; simpl; lia).
    cbn [dumps]. rewrite !append_assoc. cbn [append String.length].
    rewrite !length_append. cbn [String.length].
    rewrite parse_array_eq.
    rewrite Ht at 1. rewrite skip_ws_head by reflexivity.
    char_tests.
    remember (String.length (String.concat "," (map dumps items)) + S (String.length tail))%nat
      as n eqn:En.
    rewrite (parse_elements_flat 2 items n tail); [| subst; discriminate | exact Hall | lia].
    now rewrite Htail.
Qed.

End JsonFacts.

(** ** Integers print as JSON numbers *)

Module IntText.
Import Json JsonFacts CalendarFacts.

Lemma span_all_digits s :
  all_chars is_digit s = true -> span is_digit s = (s, "").
Proof.
  induction s as [|c r IH]; simpl; [reflexivity|].
  intros H. apply andb_true_iff in H as [Hc Hr]. now rewrite Hc, (IH Hr).
Qed.

Lemma digit_zero n : 0 < n < 10 -> Ascii.eqb (digit n) "0" = false.
Proof.
  intros H. destruct (digit_cases n) as (k & Hk & -> & Hm).
  rewrite Z.mod_small in Hm by lia.
  destruct k as [|k]; [lia|].
  do 9 (destruct k as [|k]; [reflexivity|]). exfalso; lia.
Qed.

(** The digits of a positive number: a non-zero digit, then digits. *)
Lemma digits_shape fuel : forall n acc,
  0 < n < 2 ^ Z.of_nat fuel ->
  all_chars is_digit acc = true ->
  exists c r, digits fuel n acc = String c r
    /\ is_digit c = true /\ Ascii.eqb c "0" = false /\ all_chars is_digit r = true.
Proof.
  induction fuel as [|fuel IH]; intros n acc Hn Hacc.
  - simpl in Hn. lia.
  - cbn [digits]. destruct (Z.ltb_spec n 10) as [Hlt|Hge].
    + exists (digit n), acc. repeat split; auto using digit_is_digit.
      apply digit_zero. lia.
    + apply IH.
      * rewrite Nat2Z.inj_succ, Z.pow_succ_r in Hn by lia.
        split; [apply Z.div_str_pos; lia|].
        apply Z.div_lt_upper_bound; lia.
      * cbn [all_chars]. now rewrite digit_is_digit.
Qed.

Lemma unsigned_digits c r :
  is_digit c = true -> Ascii.eqb c "0" = false -> all_chars is_digit r = true ->
  lex_unsigned (String c r) = Some (String c r, "").
Proof.
  intros Hc Hz Hr. unfold lex_unsigned. cbn [lex_int].
  rewrite Hz, Hc, (span_all_digits r Hr). cbn [lex_frac lex_exp append].
  now rewrite !append_nil_r.
Qed.

Lemma log2_fuel n : 0 < n -> n < 2 ^ Z.of_nat (Z.to_nat (Z.log2 n) + 1).
Proof.
  intros H. rewrite Nat2Z.inj_add, Z2Nat.id by apply Z.log2_nonneg.
  change (Z.of_nat 1) with 1. rewrite Z.add_1_r. now apply Z.log2_spec.
Qed.

Lemma str_int_number n : is_number (str_int n) = true.
Proof.
  unfold str_int, is_number, lex_number.
  destruct (Z.ltb_spec n 0) as [Hneg|Hpos].
  - assert (0 < - n) as Hp by lia.
    destruct (digits_shape _ (- n) "" (conj Hp (log2_fuel (- n) Hp)) eq_refl)
      as (c & r & -> & Hc & Hz & Hr).
    cbn [lex_sign]. change (Ascii.eqb "-" "-") with true. cbn iota.
    now rewrite (unsigned_digits c r Hc Hz Hr).
  - destruct (Z.eq_dec n 0) as [->|Hne]; [reflexivity|].
    assert (0 < n) as Hp by lia.
    destruct (digits_shape _ n "" (conj Hp (log2_fuel n Hp)) eq_refl)
      as (c & r & -> & Hc & Hz & Hr).
    cbn [lex_sign].
    assert (Ascii.eqb c "-" = false) as ->.
    { destruct (Ascii.eqb_spec c "-"); [subst; discriminate|reflexivity]. }
    now rewrite (unsigned_digits c r Hc Hz Hr).
Qed.

End IntText.

(** ** Lists of labelled columns *)

Lemma filter_none {X : Type} (p : X -> bool) l : existsb p l = false -> filter p l = [].
Proof.
  induction l as [|x l IH]; simpl; [reflexivity|].
  intros H. apply orb_false_iff in H as [Hx Hl]. rewrite Hx. auto.
Qed.

Section Labels.

Context {L A : Type} (eqb : L -> L -> bool).
Hypothesis eqb_spec : forall a b, eqb a b = true <-> a = b.

Lemma eqb_refl' a : eqb a a = true.
Proof. now apply eqb_spec. Qed.

Lemma eqb_sym' a b : eqb a b = eqb b a.
Proof.
  destruct (eqb a b) eqn:E1, (eqb b a) eqn:E2; try reflexivity.
  - apply eqb_spec in E1. subst. now rewrite eqb_refl' in E2.
  - apply eqb_spec in E2. subst. now rewrite eqb_refl' in E1.
Qed.

Lemma existsb_labels (cols : list (L * A)) k :
  existsb (fun c => eqb (fst c) k) cols = existsb (eqb k) (map fst cols).
Proof.
  induction cols as [|[l y] cols IH]; simpl; [reflexivity|].
  now rewrite IH, (eqb_sym' l k).
Qed.

Lemma unique_filter (cols : list (L * A)) k s :
  is_unique eqb (map fst cols) = true ->
  In (k, s) cols ->
  filter (fun c => eqb (fst c) k) cols = [(k, s)].
Proof.
  induction cols as [|[l x] cols IH]; simpl; [tauto|].
  intros Hu Hin. apply andb_true_iff in Hu as [Hl Hu].
  apply negb_true_iff in Hl.
  destruct Hin as [[= -> ->]|Hin].
  - rewrite eqb_refl'. f_equal. apply filter_none. now rewrite existsb_labels.
  - destruct (eqb l k) eqn:E; [|auto].
    apply eqb_spec in E. subst l. exfalso.
    assert (existsb (eqb k) (map fst cols) = true) as Hc; [|congruence].
    apply existsb_exists. exists k. split; [|apply eqb_refl'].
    apply in_map_iff. now exists (k, s).
Qed.

Lemma find_map_fst (p : L -> bool) (cols : list (L * A)) :
  find p (map fst cols) = option_map fst (find (fun c => p (fst c)) cols).
Proof.
  induction cols as [|[l x] cols IH]; simpl; [reflexivity|].
  destruct (p l); [reflexivity|exact IH].
Qed.

End Labels.

Lemma tuple_eqb_spec a b : tuple_eqb a b = true <-> a = b.
Proof.
  destruct a as [a1 a2], b as [b1 b2]. unfold tuple_eqb. simpl.
  rewrite andb_true_iff, !String.eqb_eq. split; [intros [-> ->]; reflexivity|].
  intros [= -> ->]. auto.
Qed.

(** ** Rows *)

Lemma map_seq_combine {A B C D : Type} (f : A -> D) (g : D -> B -> C) (dd : D) (db : B) :
  forall (la : list A) (lb : list B),
  List.length lb = List.length la ->
  map (fun i => g (nth i (map f la) dd) (nth i lb db)) (seq 0 (List.length la))
  = map (fun p => g (f (fst p)) (snd p)) (combine la lb).
Proof.
  induction la as [|a la IH]; intros lb Hl; [reflexivity|].
  destruct lb as [|b lb]; [discriminate|].
  simpl. f_equal. rewrite <- seq_shift, map_map. apply IH. simpl in Hl. lia.
Qed.

Section PandasFacts.

Variable F : Type.
Variable dumps_double : F -> option string.

Lemma cells_length (s : Series F) : List.length (cells dumps_double s) = len s.
Proof. destruct s; simpl; apply length_map. Qed.

Lemma cells_dates (v : list Z) :
  cells dumps_double (object (map strftime_Ymd v)) = map date_json v.
Proof.
  simpl. rewrite map_map. apply map_ext. intros t. unfold date_json.
  destruct (strftime_Ymd t); reflexivity.
Qed.

(** The records of a frame with the two columns [Date] and [Close]. *)
Lemma records_two n (v : list Z) (c : Series F) :
  records dumps_double n [("Date", object (map strftime_Ymd v)); ("Close", c)]
  = map (fun i => Json.JObject [("Date", nth i (map date_json v) Json.JNull);
                                ("Close", nth i (cells dumps_double c) Json.JNull)])
        (seq 0 n).
Proof.
  unfold records. apply map_ext. intros i. unfold record. cbn [map fst snd].
  now rewrite cells_dates.
Qed.

(** When the price column has one cell per date these are the rows of the
    specification. *)
Lemma records_rows (v : list Z) (c : Series F) :
  len c = List.length v ->
  records dumps_double (List.length v)
    [("Date", object (map strftime_Ymd v)); ("Close", c)]
  = rows v (cells dumps_double c).
Proof.
  intros Hl. rewrite records_two. unfold rows.
  apply (map_seq_combine date_json
           (fun d p => Json.JObject [("Date", d); ("Close", p)])).
  now rewrite cells_length.
Qed.

End PandasFacts.

(** ** The script *)

Lemma last_cons {A : Type} (l : list A) : forall a b, last (b :: l) a = last l b.
Proof.
  induction l as [|c l IH]; intros a b; [reflexivity|].
  change (last (b :: c :: l) a) with (last (c :: l) a). now rewrite !IH.
Qed.

Lemma rev_head {A : Type} (l : list A) : forall a, exists t, rev (a :: l) = last l a :: t.
Proof.
  induction l as [|b l IH]; intros a; [now exists []|].
  destruct (IH b) as [t Ht]. exists (t ++ [a])%list.
  change (rev (a :: b :: l)) with (rev (b :: l) ++ [a])%list.
  rewrite Ht, last_cons. reflexivity.
Qed.

Section ScriptFacts.

Variable F : Type.
Variable dumps_double : F -> option string.
Variable yf_download : string -> string -> result (DataFrame F).

Lemma filter_named k (cols : list (string * Series F)) :
  named k (filter (fun c => String.eqb (fst c) k) cols).
Proof.
  apply Forall_forall. intros c Hc. apply filter_In in Hc as [_ Hc].
  now apply String.eqb_eq.
Qed.

Lemma filter_app_named k k' (ds cs : list (string * Series F)) :
  k <> k' -> named k ds -> named k' cs ->
  filter (fun c => String.eqb (fst c) k) (ds ++ cs) = ds.
Proof.
  intros Hne Hd Hc. rewrite filter_app.
  assert (filter (fun c => String.eqb (fst c) k) cs = []) as ->.
  { apply filter_none. apply not_true_is_false. intros He.
    apply existsb_exists in He as (c & Hin & He). apply String.eqb_eq in He.
    unfold named in Hc. rewrite Forall_forall in Hc. specialize (Hc c Hin). congruence. }
  rewrite app_nil_r. induction Hd as [|c ds Hc' Hd IH]; simpl; [reflexivity|].
  rewrite Hc', String.eqb_refl. now f_equal.
Qed.

Lemma assign_other (s : Series F) cs :
  named "Close" cs -> assign (fun l => String.eqb l "Date") s cs = cs.
Proof.
  induction 1 as [|c cs Hc Hcs IH]; simpl; [reflexivity|].
  rewrite Hc. simpl. now rewrite IH.
Qed.

(** The output step on a frame of exactly the two columns. *)
Lemma output_two (rd : DataFrame F) v c :
  columns rd = Index [("Date", datetime64 v); ("Close", c)] ->
  output dumps_double rd
  = Ok (Json.dumps (Json.JArray
          (records dumps_double (nrows rd)
             [("Date", object (map strftime_Ymd v)); ("Close", c)]))).
Proof.
  intros Hc. unfold output, getitem, setitem, to_json_records. rewrite Hc.
  reflexivity.
Qed.

(** The output step succeeds on such frames only. *)
Lemma output_inv (rd : DataFrame F) ds cs text :
  columns rd = Index (ds ++ cs) ->
  ds <> [] -> cs <> [] -> named "Date" ds -> named "Close" cs ->
  output dumps_double rd = Ok text ->
  exists v c, ds = [("Date", datetime64 v)] /\ cs = [("Close", c)].
Proof.
  intros Hcols Hd Hc Nd Nc. unfold output, getitem. rewrite Hcols.
  rewrite (filter_app_named "Date" "Close" ds cs ltac:(discriminate) Nd Nc).
  destruct ds as [|[n s] [|d' ds]]; [congruence| |cbn; discriminate].
  inversion Nd as [|? ? Hn _]. simpl in Hn. subst n.
  cbn [Py.bind snd]. destruct s as [v| | |]; cbn [dt_strftime Py.bind]; try discriminate.
  unfold setitem, to_json_records. rewrite Hcols. cbn [columns app existsb fst].
  rewrite String.eqb_refl. cbn [orb assign fst map].
  rewrite String.eqb_refl, (assign_other _ cs Nc).
  destruct cs as [|[n c] [|c' cs]]; [congruence| |].
  - inversion Nc as [|? ? Hn _]. simpl in Hn. subst n. intros _. eauto.
  - inversion Nc as [|? ? Hn Nc']. inversion Nc' as [|? ? Hn' _].
    simpl in Hn, Hn'. destruct c' as [n' c']. simpl in Hn'. subst n n'.
    cbn [map fst is_unique existsb]. rewrite String.eqb_refl.
    cbn. rewrite andb_false_r. discriminate.
Qed.

(** What [result_data] can be. *)
Lemma result_data_shape (data rd : DataFrame F) :
  result_data data = Ok rd ->
  index rd = index data
  /\ exists ds cs, columns rd = Index (ds ++ cs)
       /\ ds <> [] /\ cs <> [] /\ named "Date" ds /\ named "Close" cs.
Proof.
  unfold result_data. destruct (columns data) as [cols|cols] eqn:Hcols.
  - unfold getitem_list. rewrite Hcols. cbn [take_columns].
    pose proof (filter_named "Date" cols) as Nd.
    pose proof (filter_named "Close" cols) as Nc.
    destruct (filter (fun c => String.eqb (fst c) "Date") cols) as [|d ds] eqn:Ed;
      [discriminate|].
    destruct (filter (fun c => String.eqb (fst c) "Close") cols) as [|c cs] eqn:Ec;
      [discriminate|].
    cbn [Py.bind]. intros [= <-]. cbn [index columns]. split; [reflexivity|].
    exists (d :: ds), (c :: cs). rewrite app_nil_r.
    repeat split; try assumption; discriminate.
  - destruct (getitem data "Date") as [date|] eqn:Hd; [|discriminate].
    cbn [Py.bind].
    destruct (match find_close (map fst cols) with
              | Some col => getitem_tuple data col
              | None => iloc_last data
              end) as [close|]; [|discriminate].
    cbn [Py.bind]. unfold DataFrame_of_dict. cbn [dict_columns].
    destruct date as [s1|]; [|discriminate].
    destruct close as [s2|]; [|discriminate].
    cbn [Py.bind]. intros [= <-]. cbn [index columns]. split; [reflexivity|].
    exists [("Date", s1)], [("Close", s2)].
    repeat split; try discriminate; repeat constructor.
Qed.

End ScriptFacts.

Section SuccessfulRuns.

Variable F : Type.
Variable dumps_double : F -> option string.
Variable yf_download : string -> string -> result (DataFrame F).

(** *** The date column of a daily history is its index *)

Lemma dated_result (df data rd : DataFrame F) idx s c :
  index df = DatetimeIndex (Some "Date") idx ->
  reset_index df = Ok data ->
  result_data data = Ok rd ->
  columns rd = Index [("Date", s); ("Close", c)] ->
  s = datetime64 idx /\ nrows data = List.length idx.
Proof.
  intros Hidx. unfold reset_index, nrows. rewrite Hidx.
  destruct (columns df) as [cols|cols].
  - destruct (existsb _ _); [discriminate|]. intros [= <-].
    unfold result_data, getitem_list. cbn [columns index take_columns fst filter].
    rewrite String.eqb_refl. cbn [Py.bind].
    destruct (if (_ =? "Close")%string then _ else _) as [|x sel]; [discriminate|].
    cbn [Py.bind app]. intros [= <-]. cbn [columns]. intros [= <- _]. auto.
  - destruct (existsb _ _); [discriminate|]. intros [= <-].
    unfold result_data, getitem. cbn [columns index filter fst].
    rewrite String.eqb_refl.
    destruct (filter _ cols) as [|x sel].
    + cbn [Py.bind].
      destruct (match find_close _ with Some col => _ | None => _ end) as [[s2|]|];
        cbn [Py.bind]; try discriminate.
      unfold DataFrame_of_dict. cbn [dict_columns Py.bind].
      intros [= <-]. cbn [columns]. intros [= <- _]. auto.
    + cbn [Py.bind].
      destruct (match find_close _ with Some col => _ | None => _ end) as [close|];
        cbn [Py.bind]; discriminate.
Qed.

(** *** Successful runs *)

Lemma script_inv argv text :
  script dumps_double yf_download argv = Ok text ->
  exists ticker start df data rd v c,
    nth_error argv 1 = Some ticker /\ nth_error argv 2 = Some start
    /\ yf_download ticker start = Ok df
    /\ reset_index df = Ok data
    /\ result_data data = Ok rd
    /\ columns rd = Index [("Date", datetime64 v); ("Close", c)]
    /\ text = Json.dumps (Json.JArray
                (records dumps_double (nrows data)
                   [("Date", object (map strftime_Ymd v)); ("Close", c)])).
Proof.
  unfold script, list_getitem.
  destruct (nth_error argv 1) as [ticker|]; [|discriminate].
  destruct (nth_error argv 2) as [start|]; [|discriminate].
  cbn [Py.bind].
  destruct (yf_download ticker start) as [df|] eqn:Hdl; [|discriminate].
  cbn [Py.bind].
  destruct (reset_index df) as [data|] eqn:Hreset; [|discriminate].
  cbn [Py.bind].
  destruct (result_data data) as [rd|] eqn:Hrd; [|discriminate].
  cbn [Py.bind]. intros Hout.
  destruct (result_data_shape F data rd Hrd) as (Hi & ds & cs & Hcols & Hd & Hc & Nd & Nc).
  destruct (output_inv F dumps_double rd ds cs text Hcols Hd Hc Nd Nc Hout)
    as (v & c & -> & ->).
  exists ticker, start, df, data, rd, v, c. repeat split; try assumption.
  rewrite (output_two F dumps_double rd v c Hcols) in Hout.
  injection Hout as <-. unfold nrows. now rewrite Hi.
Qed.

Lemma script_dated ticker start prog extra df idx text :
  yf_download ticker start = Ok df ->
  index df = DatetimeIndex (Some "Date") idx ->
  script dumps_double yf_download (prog :: ticker :: start :: extra) = Ok text ->
  exists c,
    text = Json.dumps (Json.JArray
             (records dumps_double (List.length idx)
                [("Date", object (map strftime_Ymd idx)); ("Close", c)])).
Proof.
  intros Hdl Hidx Hs.
  destruct (script_inv _ _ Hs) as (t & s & df' & data & rd & v & c & Ht & Hs' & Hdl' & Hr & Hrd & Hc & ->).
  cbn [nth_error] in Ht, Hs'. injection Ht as <-. injection Hs' as <-.
  rewrite Hdl in Hdl'. injection Hdl' as <-.
  destruct (dated_result df data rd idx _ c Hidx Hr Hrd Hc) as [Hv Hn].
  injection Hv as ->. rewrite Hn. eauto.
Qed.

Lemma reset_multi_label (cols : list ((string * string) * Series F)) :
  existsb (fun c => String.eqb (fst (fst c)) "Date") cols = false ->
  existsb (tuple_eqb ("Date", "")) (map fst cols) = false.
Proof.
  induction cols as [|[[a b] s] cols IH]; simpl; [reflexivity|].
  intros H. apply orb_false_iff in H as [Ha Hc]. rewrite (IH Hc), orb_false_r.
  destruct (tuple_eqb ("Date", "") (a, b)) eqn:E; [|reflexivity].
  apply tuple_eqb_spec in E. injection E as <- <-. discriminate.
Qed.

End SuccessfulRuns.

(** ** Runs *)

Lemma map_nth_seq {A B : Type} (g : A -> B) (d : A) (l : list A) :
  map (fun i => g (nth i l d)) (seq 0 (List.length l)) = map g l.
Proof.
  induction l as [|a l IH]; [reflexivity|].
  simpl. f_equal. rewrite <- seq_shift, map_map. exact IH.
Qed.

Lemma fromisoformat_shape s d :
  Calendar.fromisoformat s = Some d -> is_YYYY_MM_DD s = true.
Proof.
  unfold Calendar.fromisoformat, is_YYYY_MM_DD.
  destruct (list_ascii_of_string s) as [|y1 [|y2 [|y3 [|y4 [|h1 [|m1 [|m2 [|h2 [|d1 [|d2 [|x l]]]]]]]]]]];
    try discriminate.
  destruct (forallb is_digit _ && _ && _); [reflexivity|discriminate].
Qed.

Section Runs.

Variable F : Type.
Variable dumps_double : F -> option string.
Variable yf_download : string -> string -> result (DataFrame F).

Lemma main_success argv :
  exit_status (main dumps_double yf_download argv) = 0 ->
  exists text, script dumps_double yf_download argv = Ok text
    /\ stdout (main dumps_double yf_download argv) = text ++ String newline "".
Proof.
  unfold main. destruct (script dumps_double yf_download argv) as [text|e]; simpl.
  - eauto.
  - discriminate.
Qed.

Lemma main_of_script argv text :
  script dumps_double yf_download argv = Ok text ->
  main dumps_double yf_download argv
  = {| stdout := text ++ String newline ""; exit_status := 0 |}.
Proof. unfold main. now intros ->. Qed.

Lemma fields_ok_parts {L : Type} (eqb : L -> L -> bool) first n
    (cols : list (L * Series F)) :
  fields_ok eqb first n cols = true ->
  is_unique eqb (map fst cols) = true
  /\ existsb (fun c => String.eqb (first (fst c)) "Date") cols = false
  /\ Forall (fun c => len (snd c) = n) cols.
Proof.
  unfold fields_ok. intros H. apply andb_true_iff in H as [H Hl].
  apply andb_true_iff in H as [Hu Hd]. apply negb_true_iff in Hd.
  repeat split; try assumption.
  apply Forall_forall. intros c Hc. rewrite forallb_forall in Hl.
  apply Nat.eqb_eq. now apply Hl.
Qed.

(** *** Selection: reset_index, then result_data *)

Lemma select_flat idx (cols : list (string * Series F)) close :
  existsb (fun c => String.eqb (fst c) "Date") cols = false ->
  filter (fun c => String.eqb (fst c) "Close") cols = [("Close", close)] ->
  exists data,
    reset_index (history idx (Index cols)) = Ok data
    /\ columns data = Index (("Date", datetime64 idx) :: cols)
    /\ result_data data
       = Ok {| index := RangeIndex (List.length idx);
               columns := Index [("Date", datetime64 idx); ("Close", close)] |}.
Proof.
  intros Hnd Hclose. eexists. unfold reset_index, history. cbn [index columns].
  rewrite <- (existsb_labels String.eqb String.eqb_eq), Hnd.
  split; [reflexivity|]. split; [reflexivity|].
  unfold result_data, getitem_list. cbn [columns index take_columns filter fst].
  rewrite String.eqb_refl. change ("Date" =? "Close")%string with false. cbn iota.
  rewrite (filter_none _ _ Hnd), Hclose. reflexivity.
Qed.

Lemma select_multi idx (cols : list ((string * string) * Series F)) close :
  existsb (fun c => String.eqb (fst (fst c)) "Date") cols = false ->
  match find_close (map fst cols) with
  | Some col =>
      is_unique tuple_eqb (map fst cols) = true
      /\ filter (fun c => tuple_eqb (fst c) col) cols = [(col, close)]
  | None => close = last (map snd cols) (datetime64 idx)
  end ->
  exists data,
    reset_index (history idx (MultiIndex cols)) = Ok data
    /\ columns data = MultiIndex ((("Date", ""), datetime64 idx) :: cols)
    /\ result_data data
       = Ok {| index := RangeIndex (List.length idx);
               columns := Index [("Date", datetime64 idx); ("Close", close)] |}.
Proof.
  intros Hnd Hclose. eexists. unfold reset_index, history. cbn [index columns].
  rewrite (reset_multi_label F cols Hnd).
  split; [reflexivity|]. split; [reflexivity|].
  unfold result_data, getitem.
  cbn [columns index filter fst map find_close find].
  rewrite String.eqb_refl. change ("Date" =? "Close")%string with false. cbn iota.
  rewrite (filter_none _ _ Hnd). cbn [Py.bind].
  fold (find_close (map fst cols)).
  destruct (find_close (map fst cols)) as [col|] eqn:Hf.
  - destruct Hclose as [Hu Hsel].
    unfold getitem_tuple. cbn [columns filter fst map is_unique].
    rewrite (reset_multi_label F cols Hnd), Hu.
    assert (tuple_eqb ("Date", "") col = false) as ->.
    { apply not_true_is_false. intros He. apply tuple_eqb_spec in He. subst col.
      unfold find_close in Hf. apply find_some in Hf as [_ Hf]. discriminate. }
    rewrite Hsel. reflexivity.
  - subst close. unfold iloc_last. cbn [columns map snd].
    destruct (rev_head (map snd cols) (datetime64 idx)) as [t ->]. reflexivity.
Qed.

(** A selection of the two columns, one price per date, prints the rows of
    the specification. *)
Lemma main_of_selection prog ticker start extra df data idx close :
  yf_download ticker start = Ok df ->
  reset_index df = Ok data ->
  result_data data
  = Ok {| index := RangeIndex (List.length idx);
          columns := Index [("Date", datetime64 idx); ("Close", close)] |} ->
  len close = List.length idx ->
  main dumps_double yf_download (prog :: ticker :: start :: extra)
  = {| stdout := Json.dumps (Json.JArray (rows idx (cells dumps_double close)))
                 ++ String newline "";
       exit_status := 0 |}.
Proof.
  intros Hdl Hreset Hrd Hlen. apply main_of_script.
  unfold script, list_getitem. cbn [nth_error Py.bind].
  rewrite Hdl. cbn [Py.bind]. rewrite Hreset. cbn [Py.bind]. rewrite Hrd. cbn [Py.bind].
  erewrite output_two by reflexivity. unfold nrows. cbn [index].
  now rewrite records_rows.
Qed.

End Runs.

Lemma last_Forall {A : Type} (P : A -> Prop) (l : list A) (d : A) :
  Forall P l -> P d -> P (last l d).
Proof.
  intros Hl Hd. induction Hl as [|a l Ha Hl IH]; [exact Hd|].
  destruct l; [exact Ha|exact IH].
Qed.

Lemma nth_scalar (l : list Json.json) i :
  Forall (fun v => Json.scalar v = true) l -> Json.scalar (nth i l Json.JNull) = true.
Proof.
  intros H. destruct (Nat.lt_ge_cases i (List.length l)) as [Hi|Hi].
  - rewrite Forall_forall in H. apply H. now apply nth_In.
  - now rewrite nth_overflow.
Qed.

Section Emitted.

Variable F : Type.
Variable dumps_double : F -> option string.
Variable yf_download : string -> string -> result (DataFrame F).

(** The encoder writes a float as a number of the JSON grammar (or as null). *)
Hypothesis encoder : encoder_ok dumps_double.

Lemma cells_scalar (s : Series F) :
  Forall (fun v => Json.scalar v = true) (cells dumps_double s).
Proof.
  destruct s as [v|v|v|v]; cbn [cells]; apply Forall_forall; intros x Hx;
    apply in_map_iff in Hx as (y & <- & _).
  - destruct (y =? iNaT); [reflexivity|]. apply IntText.str_int_number.
  - destruct (dumps_double y) as [lit|] eqn:E; [|reflexivity]. exact (encoder y lit E).
  - apply IntText.str_int_number.
  - destruct y; reflexivity.
Qed.

Lemma records_flat n v (c : Series F) :
  forallb (Json.flat_object 2)
    (records dumps_double n [("Date", object (map strftime_Ymd v)); ("Close", c)]) = true.
Proof.
  rewrite records_two. apply forallb_forall. intros r Hr.
  apply in_map_iff in Hr as (i & <- & _).
  cbn [Json.flat_object List.length Nat.eqb negb Nat.leb forallb snd andb].
  rewrite (nth_scalar _ i (cells_scalar c)), andb_true_r.
  apply nth_scalar. apply Forall_forall. intros x Hx.
  apply in_map_iff in Hx as (t & <- & _). unfold date_json.
  destruct (strftime_Ymd t); reflexivity.
Qed.

(** What a successful run on a daily history wrote, and that it reads
    back. *)
Lemma emitted_dated prog ticker start extra idx cols :
  yf_download ticker start = Ok (history idx cols) ->
  exit_status (main dumps_double yf_download (prog :: ticker :: start :: extra)) = 0 ->
  exists c,
    Json.loads (stdout (main dumps_double yf_download (prog :: ticker :: start :: extra)))
    = Some (Json.JArray
        (records dumps_double (List.length idx)
           [("Date", object (map strftime_Ymd idx)); ("Close", c)])).
Proof.
  intros Hdl Hexit. destruct (main_success _ _ _ _ Hexit) as (text & Hs & ->).
  destruct (script_dated F dumps_double yf_download _ _ _ _ _ idx text Hdl eq_refl Hs)
    as (c & ->).
  exists c. apply JsonFacts.loads_dumps_records; [apply records_flat|reflexivity].
Qed.

End Emitted.

Section Dates.

Variable F : Type.
Variable dumps_double : F -> option string.

Lemma isoformat_decodes t :
  is_timestamp t = true ->
  Calendar.fromisoformat (Calendar.isoformat (Calendar.civil_from_days (t / day_ns)))
  = Some (Calendar.civil_from_days (t / day_ns)).
Proof.
  intros Ht. apply CalendarFacts.fromisoformat_isoformat.
  pose proof (CalendarFacts.civil_valid _ (timestamp_day t Ht)) as Hv.
  destruct (Calendar.civil_from_days (t / day_ns)) as [[y m] d]. apply Hv.
Qed.

End Dates.

(** * The claims of the specification *)

Section Claims.

Variable F : Type.
Variable dumps_double : F -> option string.
Variable yf_download : string -> string -> result (DataFrame F).

(** C1.  Two-level columns with a [Close] field: whatever the symbol in the
    second level, the frame bound to [result_data] holds the dates and the
    first column whose field is [Close], and the run prints one record per
    row with the cells of that column as prices. *)
Theorem two_level_close_column prog ticker start extra idx
    (cols : list ((string * string) * Series F)) sym close :
  yf_download ticker start = Ok (history idx (MultiIndex cols)) ->
  multi_ok (List.length idx) cols = true ->
  find (fun c => String.eqb (fst (fst c)) "Close") cols = Some (("Close", sym), close) ->
  (exists data,
     reset_index (history idx (MultiIndex cols)) = Ok data
     /\ columns data = MultiIndex ((("Date", ""), datetime64 idx) :: cols)
     /\ result_data data
        = Ok {| index := RangeIndex (List.length idx);
                columns := Index [("Date", datetime64 idx); ("Close", close)] |})
  /\ main dumps_double yf_download (prog :: ticker :: start :: extra)
     = {| stdout := Json.dumps (Json.JArray (rows idx (cells dumps_double close)))
                    ++ String newline "";
          exit_status := 0 |}.
Proof.
  intros Hdl Hok Hfind.
  destruct (fields_ok_parts F tuple_eqb fst _ cols Hok) as (Hu & Hnd & Hlen).
  pose proof (find_some _ _ Hfind) as [Hin _].
  assert (exists data,
     reset_index (history idx (MultiIndex cols)) = Ok data
     /\ columns data = MultiIndex ((("Date", ""), datetime64 idx) :: cols)
     /\ result_data data
        = Ok {| index := RangeIndex (List.length idx);
                columns := Index [("Date", datetime64 idx); ("Close", close)] |}) as Hsel.
  { apply select_multi; [exact Hnd|].
    unfold find_close. rewrite find_map_fst, Hfind. cbn [option_map fst].
    split; [exact Hu|]. now apply (unique_filter tuple_eqb tuple_eqb_spec). }
  split; [exact Hsel|]. destruct Hsel as (data & Hreset & _ & Hrd).
  apply (main_of_selection F dumps_double yf_download prog ticker start extra _ data idx close
           Hdl Hreset Hrd).
  rewrite Forall_forall in Hlen. exact (Hlen _ Hin).
Qed.

(** C2.  Flat columns with [Date] (the index turned into a column) and
    [Close]: [result_data] holds exactly those two columns, [Date] first,
    with the cells of the provider, and the run prints them row by row, in
    row order. *)
Theorem flat_columns_give_Date_and_Close prog ticker start extra idx
    (cols : list (string * Series F)) close :
  yf_download ticker start = Ok (history idx (Index cols)) ->
  flat_ok (List.length idx) cols = true ->
  In ("Close", close) cols ->
  (exists data,
     reset_index (history idx (Index cols)) = Ok data
     /\ columns data = Index (("Date", datetime64 idx) :: cols)
     /\ result_data data
        = Ok {| index := RangeIndex (List.length idx);
                columns := Index [("Date", datetime64 idx); ("Close", close)] |})
  /\ main dumps_double yf_download (prog :: ticker :: start :: extra)
     = {| stdout := Json.dumps (Json.JArray (rows idx (cells dumps_double close)))
                    ++ String newline "";
          exit_status := 0 |}.
Proof.
  intros Hdl Hok Hin.
  destruct (fields_ok_parts F String.eqb (fun l => l) _ cols Hok) as (Hu & Hnd & Hlen).
  assert (exists data,
     reset_index (history idx (Index cols)) = Ok data
     /\ columns data = Index (("Date", datetime64 idx) :: cols)
     /\ result_data data
        = Ok {| index := RangeIndex (List.length idx);
                columns := Index [("Date", datetime64 idx); ("Close", close)] |}) as Hsel.
  { apply select_flat; [exact Hnd|].
    now apply (unique_filter String.eqb String.eqb_eq). }
  split; [exact Hsel|]. destruct Hsel as (data & Hreset & _ & Hrd).
  apply (main_of_selection F dumps_double yf_download prog ticker start extra _ data idx close
           Hdl Hreset Hrd).
  rewrite Forall_forall in Hlen. exact (Hlen _ Hin).
Qed.

(** C3.  Two-level columns without a [Close] field: the run does not fail;
    the last column in column order (which [iloc] reads) is taken as the
    price column and the run prints one record per row. *)
Theorem two_level_fallback_is_last_column prog ticker start extra idx
    (cols : list ((string * string) * Series F)) :
  yf_download ticker start = Ok (history idx (MultiIndex cols)) ->
  multi_ok (List.length idx) cols = true ->
  find (fun c => String.eqb (fst (fst c)) "Close") cols = None ->
  let price := last (map snd cols) (datetime64 idx) in
  (exists data,
     reset_index (history idx (MultiIndex cols)) = Ok data
     /\ columns data = MultiIndex ((("Date", ""), datetime64 idx) :: cols)
     /\ iloc_last data = Ok (ASeries price)
     /\ result_data data
        = Ok {| index := RangeIndex (List.length idx);
                columns := Index [("Date", datetime64 idx); ("Close", price)] |})
  /\ main dumps_double yf_download (prog :: ticker :: start :: extra)
     = {| stdout := Json.dumps (Json.JArray (rows idx (cells dumps_double price)))
                    ++ String newline "";
          exit_status := 0 |}.
Proof.
  intros Hdl Hok Hfind price.
  destruct (fields_ok_parts F tuple_eqb fst _ cols Hok) as (Hu & Hnd & Hlen).
  destruct (select_multi F idx cols price Hnd) as (data & Hreset & Hcols & Hrd).
  { unfold find_close. rewrite find_map_fst, Hfind. reflexivity. }
  split.
  - exists data. repeat split; try assumption.
    unfold iloc_last. rewrite Hcols. cbn [map snd].
    destruct (rev_head (map snd cols) (datetime64 idx)) as [t ->]. reflexivity.
  - apply (main_of_selection F dumps_double yf_download prog ticker start extra _ data idx price
             Hdl Hreset Hrd).
    apply (last_Forall (fun s : Series F => len s = List.length idx)); [|reflexivity].
    apply Forall_map. exact Hlen.
Qed.


End Claims.

Lemma day_mono a b : a <= b -> a / day_ns <= b / day_ns.
Proof. intros H. apply Z.div_le_mono; [reflexivity|exact H]. Qed.

Lemma sorted_dates (idx : list Z) :
  Sorted Z.le idx ->
  StronglySorted (fun a b => Calendar.leb a b = true)
    (map (fun t => Calendar.civil_from_days (t / day_ns)) idx).
Proof.
  intros Hs. apply Sorted_StronglySorted in Hs; [|intros x y z; apply Z.le_trans].
  induction Hs as [|t l Hl IH Ht]; simpl; constructor; [exact IH|].
  apply Forall_map. eapply Forall_impl; [|exact Ht].
  intros u Hu. apply CalendarFacts.civil_mono. now apply day_mono.
Qed.

Section MoreClaims.

Variable F : Type.
Variable dumps_double : F -> option string.
Variable yf_download : string -> string -> result (DataFrame F).

(** C7.  With fewer than two positional arguments the run ends with a
    non-zero status and nothing on standard output. *)
Theorem too_few_arguments argv :
  (List.length (tl argv) < 2)%nat ->
  exit_status (main dumps_double yf_download argv) <> 0
  /\ stdout (main dumps_double yf_download argv) = "".
Proof.
  intros Hlen. unfold main, script, list_getitem.
  destruct argv as [|prog [|ticker [|start extra]]]; cbn [nth_error Py.bind];
    try (split; [discriminate|reflexivity]).
  simpl in Hlen. lia.
Qed.

(** C8, as amended.  A run exits with status 0 and the JSON array on
    standard output when the script reaches its end, and with status 1 and
    nothing on standard output when an exception is raised; fewer than two
    positional arguments raise one; arguments after the second are not read,
    so a run with more of them is the run with the first two. *)
Theorem exit_status_of_a_run argv :
  ((exit_status (main dumps_double yf_download argv) = 0
    /\ exists recs,
         script dumps_double yf_download argv = Ok (Json.dumps (Json.JArray recs))
         /\ stdout (main dumps_double yf_download argv)
            = Json.dumps (Json.JArray recs) ++ String newline "")
   \/ (exit_status (main dumps_double yf_download argv) = 1
       /\ stdout (main dumps_double yf_download argv) = ""
       /\ exists e, script dumps_double yf_download argv = Raise e))
  /\ ((List.length (tl argv) < 2)%nat ->
      exit_status (main dumps_double yf_download argv) = 1)
  /\ (forall prog ticker start extra,
        argv = prog :: ticker :: start :: extra ->
        main dumps_double yf_download argv
        = main dumps_double yf_download [prog; ticker; start]).
Proof.
  split; [|split].
  - unfold main. destruct (script dumps_double yf_download argv) as [text|e] eqn:Hs.
    + left. split; [reflexivity|].
      destruct (script_inv F dumps_double yf_download argv text Hs)
        as (t & s & df & data & rd & v & c & _ & _ & _ & _ & _ & _ & ->).
      eexists. split; reflexivity.
    + right. cbn. eauto.
  - intros Hlen. unfold main, script, list_getitem.
    destruct argv as [|prog [|ticker [|start extra]]]; cbn [nth_error Py.bind];
      try reflexivity.
    simpl in Hlen. lia.
  - intros prog ticker start extra ->. reflexivity.
Qed.

(** C10.  A daily history with no rows and flat columns among which
    [Close]: the run succeeds and prints the empty array, [[]] and the
    newline of [print]. *)
Theorem empty_history_prints_empty_array prog ticker start extra
    (cols : list (string * Series F)) close :
  yf_download ticker start = Ok (history [] (Index cols)) ->
  flat_ok 0 cols = true ->
  In ("Close", close) cols ->
  main dumps_double yf_download (prog :: ticker :: start :: extra)
  = {| stdout := "[]" ++ String newline ""; exit_status := 0 |}.
Proof.
  intros Hdl Hok Hin.
  destruct (fields_ok_parts F String.eqb (fun l => l) _ cols Hok) as (Hu & Hnd & Hlen).
  destruct (select_flat F [] cols close Hnd) as (data & Hreset & _ & Hrd).
  { now apply (unique_filter String.eqb String.eqb_eq). }
  rewrite (main_of_selection F dumps_double yf_download prog ticker start extra _ data [] close
             Hdl Hreset Hrd).
  - reflexivity.
  - rewrite Forall_forall in Hlen. exact (Hlen _ Hin).
Qed.

End MoreClaims.

(** * The sample runs *)

Lemma sample_encoder_ok : encoder_ok sample_dumps.
Proof. intros [] lit [= <-]; reflexivity. Qed.

(** What the script prints for the flat sample. *)
Example sample_flat_records :
  emitted (main sample_dumps (sample_provider sample_flat) sample_argv)
  = Some [Json.JObject [("Date", Json.JString "2021-05-03"); ("Close", Json.JNumber "132.04")];
          Json.JObject [("Date", Json.JString "2021-05-04"); ("Close", Json.JNumber "127.85")]].
Proof. vm_compute. reflexivity. Qed.

Lemma two_level_close_column_witness :
  (exists data,
     reset_index sample_multi = Ok data
     /\ columns data
        = MultiIndex ((("Date", ""), datetime64 [may_3; may_4])
                      :: match columns sample_multi with
                         | MultiIndex cols => cols
                         | Index _ => []
                         end)
     /\ result_data data
        = Ok {| index := RangeIndex 2;
                columns := Index [("Date", datetime64 [may_3; may_4]);
                                  ("Close", float64 [p132_04; p127_85])] |})
  /\ main sample_dumps (sample_provider sample_multi) sample_argv
     = {| stdout := Json.dumps (Json.JArray
                      (rows [may_3; may_4] [Json.JNumber "132.04"; Json.JNumber "127.85"]))
                    ++ String newline "";
          exit_status := 0 |}.
Proof.
  exact (two_level_close_column sample_price sample_dumps (sample_provider sample_multi)
           "FetchData.py" "AAPL" "2021-05-03" [] [may_3; may_4] _ "AAPL" _
           eq_refl eq_refl eq_refl).
Defined.

Lemma flat_columns_give_Date_and_Close_witness :
  (exists data,
     reset_index sample_flat = Ok data
     /\ columns data
        = Index (("Date", datetime64 [may_3; may_4])
                 :: match columns sample_flat with
                    | Index cols => cols
                    | MultiIndex _ => []
                    end)
     /\ result_data data
        = Ok {| index := RangeIndex 2;
                columns := Index [("Date", datetime64 [may_3; may_4]);
                                  ("Close", float64 [p132_04; p127_85])] |})
  /\ main sample_dumps (sample_provider sample_flat) sample_argv
     = {| stdout := Json.dumps (Json.JArray
                      (rows [may_3; may_4] [Json.JNumber "132.04"; Json.JNumber "127.85"]))
                    ++ String newline "";
          exit_status := 0 |}.
Proof.
  exact (flat_columns_give_Date_and_Close sample_price sample_dumps
           (sample_provider sample_flat)
           "FetchData.py" "AAPL" "2021-05-03" [] [may_3; may_4] _ _
           eq_refl eq_refl (or_introl eq_refl)).
Defined.

Lemma two_level_fallback_is_last_column_witness :
  (exists data,
     reset_index sample_no_close = Ok data
     /\ columns data
        = MultiIndex ((("Date", ""), datetime64 [may_3; may_4])
                      :: match columns sample_no_close with
                         | MultiIndex cols => cols
                         | Index _ => []
                         end)
     /\ iloc_last data = Ok (ASeries (int64 [75135100; 137564700]))
     /\ result_data data
        = Ok {| index := RangeIndex 2;
                columns := Index [("Date", datetime64 [may_3; may_4]);
                                  ("Close", int64 [75135100; 137564700])] |})
  /\ main sample_dumps (sample_provider sample_no_close) sample_argv
     = {| stdout := Json.dumps (Json.JArray
                      (rows [may_3; may_4]
                         [Json.JNumber "75135100"; Json.JNumber "137564700"]))
                    ++ String newline "";
          exit_status := 0 |}.
Proof.
  exact (two_level_fallback_is_last_column sample_price sample_dumps
           (sample_provider sample_no_close)
           "FetchData.py" "AAPL" "2021-05-03" [] [may_3; may_4] _
           eq_refl eq_refl eq_refl).
Defined.



Lemma too_few_arguments_witness :
  exit_status (main sample_dumps (sample_provider sample_flat) ["FetchData.py"; "AAPL"]) <> 0
  /\ stdout (main sample_dumps (sample_provider sample_flat) ["FetchData.py"; "AAPL"]) = "".
Proof.
  apply (too_few_arguments sample_price sample_dumps (sample_provider sample_flat)
           ["FetchData.py"; "AAPL"]).
  simpl. lia.
Defined.

(** The claim C8 as the specification states it fails on a third argument:
    the argument count is not two and the run exits with status 0. *)
Lemma extra_argument_exits_zero :
  let argv := ["FetchData.py"; "AAPL"; "2021-05-03"; "extra"] in
  List.length (tl argv) <> 2%nat
  /\ exit_status (main sample_dumps (sample_provider sample_flat) argv) = 0.
Proof. cbv zeta. split; [discriminate|reflexivity]. Qed.

Lemma exit_status_of_a_run_witness :
  exit_status (main sample_dumps (sample_provider sample_flat) ["FetchData.py"]) = 1
  /\ main sample_dumps (sample_provider sample_flat)
       ["FetchData.py"; "AAPL"; "2021-05-03"; "extra"]
     = main sample_dumps (sample_provider sample_flat) sample_argv.
Proof.
  split.
  - apply (proj1 (proj2 (exit_status_of_a_run sample_price sample_dumps
                           (sample_provider sample_flat) ["FetchData.py"]))).
    simpl. lia.
  - apply (proj2 (proj2 (exit_status_of_a_run sample_price sample_dumps
                           (sample_provider sample_flat)
                           ["FetchData.py"; "AAPL"; "2021-05-03"; "extra"]))
             "FetchData.py" "AAPL" "2021-05-03" ["extra"]).
    reflexivity.
Defined.

Lemma empty_history_prints_empty_array_witness :
  main sample_dumps (sample_provider sample_empty) sample_argv
  = {| stdout := "[]" ++ String newline ""; exit_status := 0 |}.
Proof.
  exact (empty_history_prints_empty_array sample_price sample_dumps
           (sample_provider sample_empty)
           "FetchData.py" "AAPL" "2021-05-03" [] _ _
           eq_refl eq_refl (or_introl eq_refl)).
Defined.

(** * Further properties of the script *)

(** ** Runs that end on an exception *)

Section Failures.

Variable F : Type.
Variable dumps_double : F -> option string.
Variable yf_download : string -> string -> result (DataFrame F).

Lemma main_of_raise argv e :
  script dumps_double yf_download argv = Raise e ->
  main dumps_double yf_download argv = failed.
Proof. unfold main. now intros ->. Qed.

Lemma script_steps prog ticker start extra df :
  yf_download ticker start = Ok df ->
  script dumps_double yf_download (prog :: ticker :: start :: extra)
  = (data <- reset_index df ;;
     result_data <- result_data data ;;
     output dumps_double result_data).
Proof.
  intros Hdl. unfold script, list_getitem. cbn [nth_error Py.bind]. now rewrite Hdl.
Qed.

(** X1. The script catches nothing: when [yf.download] raises, the run ends
    on that same exception, before anything is printed, and the process
    exits with status 1 and an empty standard output. *)
Theorem provider_exception_ends_the_run prog ticker start extra e :
  yf_download ticker start = Raise e ->
  script dumps_double yf_download (prog :: ticker :: start :: extra) = Raise e
  /\ main dumps_double yf_download (prog :: ticker :: start :: extra) = failed.
Proof.
  intros Hdl.
  assert (script dumps_double yf_download (prog :: ticker :: start :: extra) = Raise e) as Hs.
  { unfold script, list_getitem. cbn [nth_error Py.bind]. now rewrite Hdl. }
  split; [exact Hs|exact (main_of_raise _ _ Hs)].
Qed.

(** X2. When the provider answers with flat columns none of which is called
    [Close], the run fails: nothing is printed and the exit status is 1.
    Unless a column is called [Date] (which fails earlier, in
    [reset_index]), the exception is the [KeyError] of
    [data[["Date", "Close"]]]. *)
Theorem flat_columns_without_Close_fail prog ticker start extra idx
    (cols : list (string * Series F)) :
  yf_download ticker start = Ok (history idx (Index cols)) ->
  existsb (fun c => String.eqb (fst c) "Close") cols = false ->
  main dumps_double yf_download (prog :: ticker :: start :: extra) = failed
  /\ (existsb (fun c => String.eqb (fst c) "Date") cols = false ->
      script dumps_double yf_download (prog :: ticker :: start :: extra) = Raise KeyError).
Proof.
  intros Hdl Hnc.
  assert (exists e, script dumps_double yf_download (prog :: ticker :: start :: extra) = Raise e
            /\ (existsb (fun c => String.eqb (fst c) "Date") cols = false -> e = KeyError))
    as (e & Hs & He).
  { rewrite (script_steps _ _ _ _ _ Hdl). unfold reset_index, history. cbn [index columns].
    rewrite <- (existsb_labels String.eqb String.eqb_eq).
    destruct (existsb (fun c => String.eqb (fst c) "Date") cols) eqn:Hd.
    - exists ValueError. split; [reflexivity|discriminate].
    - exists KeyError. split; [|reflexivity].
      cbn [Py.bind]. unfold result_data, getitem_list.
      cbn [columns index take_columns filter fst].
      rewrite String.eqb_refl. change ("Date" =? "Close")%string with false. cbn iota.
      now rewrite (filter_none _ _ Hd), (filter_none _ _ Hnc). }
  split; [exact (main_of_raise _ _ Hs)|].
  intros Hd. rewrite Hs. now rewrite (He Hd).
Qed.

Lemma default_label_not_Date (name : option string) (firsts : list string) :
  name <> Some "Date" ->
  match name with
  | Some n => n
  | None => if existsb (String.eqb "index") firsts then "level_0" else "index"
  end <> "Date".
Proof.
  destruct name as [n|]; [congruence|]. intros _.
  destruct (existsb _ firsts); discriminate.
Qed.

Lemma no_field_filter {A : Type} (first : A -> string) (cols : list A) k :
  ~ In k (map first cols) ->
  filter (fun c => String.eqb (first c) k) cols = [].
Proof.
  intros Hn. apply filter_none. apply not_true_is_false. intros He.
  apply existsb_exists in He as (c & Hin & He). apply String.eqb_eq in He.
  apply Hn. rewrite <- He. now apply in_map.
Qed.

(** X3. The script relies on the index of the provider's frame being called
    [Date]: for a frame whose index has another name, or none, and which has
    no field called [Date], the run fails with status 1 and prints nothing.
    The exception is the [KeyError] of the lookup of [Date], or the
    [ValueError] of [reset_index] when the label it inserts is taken. *)
Theorem frame_without_Date_fails prog ticker start extra (df : DataFrame F) :
  yf_download ticker start = Ok df ->
  index_name df <> Some "Date" ->
  ~ In "Date" (fields df) ->
  main dumps_double yf_download (prog :: ticker :: start :: extra) = failed
  /\ (script dumps_double yf_download (prog :: ticker :: start :: extra) = Raise KeyError
      \/ script dumps_double yf_download (prog :: ticker :: start :: extra)
         = Raise ValueError).
Proof.
  intros Hdl Hname Hfields.
  assert (script dumps_double yf_download (prog :: ticker :: start :: extra) = Raise KeyError
          \/ script dumps_double yf_download (prog :: ticker :: start :: extra)
             = Raise ValueError) as Hs.
  { rewrite (script_steps _ _ _ _ _ Hdl). unfold reset_index.
    unfold index_name in Hname. unfold fields in Hfields.
    destruct (index df) as [n|name v]; destruct (columns df) as [cols|cols];
      cbn beta iota zeta.
    all: match goal with
         | |- context [if ?b then Raise ValueError else _] => destruct b; [now right|left]
         end.
    all: cbn [Py.bind]; unfold result_data; cbn [columns].
    - unfold getitem_list. cbn [columns take_columns filter fst].
      destruct (existsb (String.eqb "index") (map fst cols));
        cbn; now rewrite (no_field_filter fst cols "Date" Hfields).
    - unfold getitem. cbn [columns filter fst].
      destruct (existsb (String.eqb "index") (map (fun c => fst (fst c)) cols));
        cbn; now rewrite (no_field_filter (fun c => fst (fst c)) cols "Date" Hfields).
    - unfold getitem_list. cbn [columns take_columns filter fst].
      pose proof (default_label_not_Date name (map fst cols) Hname) as Hl.
      apply String.eqb_neq in Hl. rewrite Hl.
      now rewrite (no_field_filter fst cols "Date" Hfields).
    - unfold getitem. cbn [columns filter fst].
      pose proof (default_label_not_Date name (map (fun c => fst (fst c)) cols) Hname) as Hl.
      apply String.eqb_neq in Hl. rewrite Hl.
      now rewrite (no_field_filter (fun c => fst (fst c)) cols "Date" Hfields). }
  split; [|exact Hs]. destruct Hs as [Hs|Hs]; exact (main_of_raise _ _ Hs).
Qed.

End Failures.

Section MoreFailures.

Variable F : Type.
Variable dumps_double : F -> option string.
Variable yf_download : string -> string -> result (DataFrame F).

(** X4. A history that already has a column labelled as [reset_index]
    labels the dates ([Date] for flat columns, [('Date', '')] for two-level
    ones) makes [reset_index] raise [ValueError]: the run fails with status 1
    and prints nothing. *)
Theorem field_called_Date_clashes_with_index prog ticker start extra idx (cols : Columns F) :
  yf_download ticker start = Ok (history idx cols) ->
  match cols with
  | Index cs => In "Date" (map fst cs)
  | MultiIndex cs => In ("Date", "") (map fst cs)
  end ->
  script dumps_double yf_download (prog :: ticker :: start :: extra) = Raise ValueError
  /\ main dumps_double yf_download (prog :: ticker :: start :: extra) = failed.
Proof.
  intros Hdl Hin.
  assert (script dumps_double yf_download (prog :: ticker :: start :: extra)
          = Raise ValueError) as Hs.
  { rewrite (script_steps _ _ _ _ _ _ _ _ Hdl). unfold reset_index, history.
    cbn [index columns]. destruct cols as [cs|cs].
    - assert (existsb (String.eqb "Date") (map fst cs) = true) as ->; [|reflexivity].
      apply existsb_exists. exists "Date". split; [exact Hin|apply String.eqb_refl].
    - assert (existsb (tuple_eqb ("Date", "")) (map fst cs) = true) as ->; [|reflexivity].
      apply existsb_exists. exists ("Date", ""). split; [exact Hin|reflexivity]. }
  split; [exact Hs|exact (main_of_raise _ _ _ _ _ Hs)].
Qed.

(** X5. Flat columns with more than one column called [Close] pass the
    selection [data[["Date", "Close"]]] and the formatting of the dates, and
    fail in [to_json(orient="records")], which refuses repeated column names
    with a [ValueError]: the run prints nothing and exits with status 1. *)
Theorem repeated_Close_column_fails prog ticker start extra idx
    (cols : list (string * Series F)) c1 c2 more :
  yf_download ticker start = Ok (history idx (Index cols)) ->
  existsb (fun c => String.eqb (fst c) "Date") cols = false ->
  filter (fun c => String.eqb (fst c) "Close") cols = c1 :: c2 :: more ->
  script dumps_double yf_download (prog :: ticker :: start :: extra) = Raise ValueError
  /\ main dumps_double yf_download (prog :: ticker :: start :: extra) = failed.
Proof.
  intros Hdl Hnd Hclose.
  assert (script dumps_double yf_download (prog :: ticker :: start :: extra)
          = Raise ValueError) as Hs.
  { rewrite (script_steps _ _ _ _ _ _ _ _ Hdl). unfold reset_index, history.
    cbn [index columns].
    rewrite <- (existsb_labels String.eqb String.eqb_eq), Hnd. cbn [Py.bind].
    unfold result_data, getitem_list. cbn [columns index take_columns filter fst].
    rewrite String.eqb_refl. change ("Date" =? "Close")%string with false. cbn iota.
    rewrite (filter_none _ _ Hnd), Hclose. cbn [Py.bind app]. rewrite app_nil_r.
    pose proof (filter_named F "Close" cols) as Hn. rewrite Hclose in Hn.
    inversion Hn as [|? ? H1 Hn']. inversion Hn' as [|? ? H2 Hn''].
    destruct c1 as [n1 s1], c2 as [n2 s2]. simpl in H1, H2. subst n1 n2.
    unfold output, getitem. cbn [columns filter fst].
    rewrite String.eqb_refl. change ("Close" =? "Date")%string with false. cbn iota.
    assert (filter (fun c => String.eqb (fst c) "Date") more = []) as ->.
    { apply filter_none. apply not_true_is_false. intros He.
      apply existsb_exists in He as (c & Hc & He). apply String.eqb_eq in He.
      unfold named in Hn''. rewrite Forall_forall in Hn''.
      rewrite (Hn'' c Hc) in He. discriminate. }
    cbn [Py.bind snd dt_strftime]. unfold setitem, to_json_records.
    cbn [columns existsb fst orb]. rewrite String.eqb_refl. cbn [orb assign fst].
    rewrite String.eqb_refl. change ("Close" =? "Date")%string with false. cbn iota.
    cbn [map fst is_unique existsb]. rewrite String.eqb_refl.
    cbn [orb negb andb]. now rewrite andb_false_r. }
  split; [exact Hs|exact (main_of_raise _ _ _ _ _ Hs)].
Qed.

End MoreFailures.

(** ** Dates *)

Module DayFacts.
Import Calendar CalendarFacts.

Lemma month_day_inj (leap : bool) a b :
  0 <= a < (if leap then 366 else 365) ->
  0 <= b < (if leap then 366 else 365) ->
  month_day (month_lengths leap) 1 a = month_day (month_lengths leap) 1 b ->
  a = b.
Proof.
  intros Ha Hb. destruct leap; cbn [month_day month_lengths].
  all: repeat match goal with
  | |- context [if ?x <? ?y then _ else _] => destruct (Z.ltb_spec x y)
  end.
  all: intros He; pose proof (f_equal fst He) as Hm; pose proof (f_equal snd He) as Hd;
    cbn [fst snd] in Hm, Hd; lia.
Qed.

(** Different days have different dates. *)
Lemma civil_inj a b : civil_from_days a = civil_from_days b -> a = b.
Proof.
  unfold civil_from_days.
  pose proof (yearsdays_spec a) as Ha. pose proof (yearsdays_spec b) as Hb.
  destruct (days_to_yearsdays a) as [y1 n1], (days_to_yearsdays b) as [y2 n2].
  destruct Ha as [Ea Ra], Hb as [Eb Rb]. unfold year_length in *.
  destruct (month_day (month_lengths (is_leap y1)) 1 n1) as [m1 d1] eqn:M1.
  destruct (month_day (month_lengths (is_leap y2)) 1 n2) as [m2 d2] eqn:M2.
  intros [= -> -> ->]. rewrite <- M2 in M1.
  apply month_day_inj in M1; [lia|assumption|assumption].
Qed.

End DayFacts.

(** X6. The text [strftime('%Y-%m-%d')] writes for a timestamp tells its day
    and nothing else: two timestamps are written alike exactly when they
    fall on the same day, whatever their time of day. *)
Theorem strftime_tells_the_day_and_nothing_else a b :
  is_timestamp a = true -> is_timestamp b = true ->
  (strftime_Ymd a = strftime_Ymd b <-> a / day_ns = b / day_ns).
Proof.
  intros Ha Hb. unfold strftime_Ymd.
  assert (forall t, is_timestamp t = true -> (t =? iNaT) = false) as Hn.
  { intros t Ht. unfold is_timestamp in Ht. apply andb_true_iff in Ht as [Ht _].
    apply Z.ltb_lt in Ht. apply Z.eqb_neq. lia. }
  rewrite (Hn a Ha), (Hn b Hb). split.
  - intros [= He]. apply DayFacts.civil_inj.
    pose proof (isoformat_decodes a Ha) as Da. pose proof (isoformat_decodes b Hb) as Db.
    rewrite He in Da. rewrite Da in Db. now injection Db.
  - now intros ->.
Qed.

Section MissingDates.

Variable F : Type.
Variable dumps_double : F -> option string.
Variable yf_download : string -> string -> result (DataFrame F).

(** X7. A missing timestamp (NaT) does not make the run fail: in every
    successful run on a history, the [Date] members of the printed records
    are, in row order, [null] for NaT and the date of the day as a string
    for every other timestamp. *)
Theorem missing_timestamp_is_a_null_date prog ticker start extra idx cols :
  encoder_ok dumps_double ->
  yf_download ticker start = Ok (history idx cols) ->
  exit_status (main dumps_double yf_download (prog :: ticker :: start :: extra)) = 0 ->
  exists recs,
    emitted (main dumps_double yf_download (prog :: ticker :: start :: extra)) = Some recs
    /\ map (member "Date") recs
       = map (fun t =>
                Some (if t =? iNaT then Json.JNull
                      else Json.JString
                             (Calendar.isoformat (Calendar.civil_from_days (t / day_ns)))))
             idx.
Proof.
  intros Henc Hdl Hexit.
  destruct (emitted_dated F dumps_double yf_download Henc _ _ _ _ idx cols Hdl Hexit)
    as (c & Hloads).
  unfold emitted. rewrite Hloads. eexists. split; [reflexivity|].
  rewrite records_two, map_map.
  transitivity (map (fun i => Some (nth i (map date_json idx) Json.JNull))
                  (seq 0 (List.length idx))); [apply map_ext; intros i; reflexivity|].
  rewrite <- (length_map date_json idx).
  rewrite (map_nth_seq (fun v => Some v) Json.JNull (map date_json idx)).
  rewrite map_map. apply map_ext. intros t. unfold date_json, strftime_Ymd.
  destruct (t =? iNaT); reflexivity.
Qed.

End MissingDates.

(** ** The two shapes of the columns *)

Section Shapes.

Variable F : Type.
Variable dumps_double : F -> option string.

Lemma under_symbol_exists sym (cols : list (string * Series F)) k :
  existsb (fun c => String.eqb (fst (fst c)) k) (under_symbol sym cols)
  = existsb (fun c => String.eqb (fst c) k) cols.
Proof. unfold under_symbol. induction cols as [|c cols IH]; simpl; [reflexivity|now rewrite IH]. Qed.

Lemma under_symbol_unique sym (cols : list (string * Series F)) :
  is_unique tuple_eqb (map fst (under_symbol sym cols))
  = is_unique String.eqb (map fst cols).
Proof.
  unfold under_symbol. induction cols as [|[n s] cols IH]; simpl; [reflexivity|].
  rewrite IH. f_equal. f_equal.
  clear IH. induction cols as [|[n' s'] cols IH]; simpl; [reflexivity|].
  rewrite IH. unfold tuple_eqb at 1. simpl. now rewrite String.eqb_refl, andb_true_r.
Qed.

Lemma under_symbol_aligned sym n (cols : list (string * Series F)) :
  forallb (fun c => Nat.eqb (len (snd c)) n) (under_symbol sym cols)
  = forallb (fun c => Nat.eqb (len (snd c)) n) cols.
Proof. unfold under_symbol. induction cols as [|c cols IH]; simpl; [reflexivity|now rewrite IH]. Qed.

Lemma under_symbol_ok sym n (cols : list (string * Series F)) :
  multi_ok n (under_symbol sym cols) = flat_ok n cols.
Proof.
  unfold multi_ok, flat_ok, fields_ok.
  now rewrite under_symbol_unique, under_symbol_exists, under_symbol_aligned.
Qed.

Lemma under_symbol_find sym (cols : list (string * Series F)) close :
  is_unique String.eqb (map fst cols) = true ->
  In ("Close", close) cols ->
  find (fun c => String.eqb (fst (fst c)) "Close") (under_symbol sym cols)
  = Some (("Close", sym), close).
Proof.
  unfold under_symbol. induction cols as [|[n s] cols IH]; simpl; [tauto|].
  intros Hu Hin. apply andb_true_iff in Hu as [Hn Hu]. apply negb_true_iff in Hn.
  destruct (String.eqb_spec n "Close") as [->|Hne].
  - destruct Hin as [[= ->]|Hin]; [reflexivity|]. exfalso.
    assert (existsb (String.eqb "Close") (map fst cols) = true) as Hc; [|congruence].
    apply existsb_exists. exists "Close". split; [|reflexivity].
    apply in_map_iff. now exists ("Close", close).
  - destruct Hin as [[= -> _]|Hin]; [congruence|]. now apply IH.
Qed.

(** X8. The two branches of the script agree: a well-formed flat history
    with a [Close] column, and the same columns under one symbol of a second
    level, give the same standard output and the same exit status, 0. *)
Theorem flat_and_two_level_responses_agree
    (yf_flat yf_multi : string -> string -> result (DataFrame F))
    prog ticker start extra idx (cols : list (string * Series F)) sym close :
  yf_flat ticker start = Ok (history idx (Index cols)) ->
  yf_multi ticker start = Ok (history idx (MultiIndex (under_symbol sym cols))) ->
  flat_ok (List.length idx) cols = true ->
  In ("Close", close) cols ->
  main dumps_double yf_multi (prog :: ticker :: start :: extra)
  = main dumps_double yf_flat (prog :: ticker :: start :: extra)
  /\ exit_status (main dumps_double yf_flat (prog :: ticker :: start :: extra)) = 0.
Proof.
  intros Hf Hm Hok Hin.
  destruct (fields_ok_parts F String.eqb (fun l => l) _ cols Hok) as (Hu & Hnd & Hlen).
  assert (len close = List.length idx) as Hl.
  { rewrite Forall_forall in Hlen. exact (Hlen _ Hin). }
  destruct (select_flat F idx cols close Hnd) as (data & Hreset & _ & Hrd).
  { now apply (unique_filter String.eqb String.eqb_eq). }
  pose proof (main_of_selection F dumps_double yf_flat prog ticker start extra _ data idx close
                Hf Hreset Hrd Hl) as Hflat.
  assert (multi_ok (List.length idx) (under_symbol sym cols) = true) as Hmok
    by now rewrite under_symbol_ok.
  destruct (fields_ok_parts F tuple_eqb fst _ _ Hmok) as (Hmu & Hmnd & _).
  destruct (select_multi F idx (under_symbol sym cols) close Hmnd) as (data' & Hreset' & _ & Hrd').
  { unfold find_close. rewrite find_map_fst, (under_symbol_find sym cols close Hu Hin).
    cbn [option_map fst]. split; [exact Hmu|].
    apply (unique_filter tuple_eqb tuple_eqb_spec); [exact Hmu|].
    unfold under_symbol. apply in_map_iff. now exists ("Close", close). }
  pose proof (main_of_selection F dumps_double yf_multi prog ticker start extra _ data' idx close
                Hm Hreset' Hrd' Hl) as Hmulti.
  rewrite Hflat, Hmulti. split; reflexivity.
Qed.

Lemma filter_series {L : Type} (p : L * Series F -> bool) (cols sel : list (L * Series F)) x :
  filter p cols = sel -> In x sel -> In (snd x) (map snd cols).
Proof. intros <- Hx. apply filter_In in Hx as [Hx _]. now apply in_map. Qed.

Lemma getitem_series (data : DataFrame F) key s :
  getitem data key = Ok (ASeries s) -> In s (series data).
Proof.
  unfold getitem, series. destruct (columns data) as [cols|cols].
  - destruct (filter _ cols) as [|c [|c' sel]] eqn:E; try discriminate.
    intros [= <-]. apply (filter_series _ cols _ c E). now left.
  - destruct (filter _ cols) as [|[[a b] s'] sel] eqn:E; [discriminate|].
    destruct b; [|discriminate]. destruct sel; [|discriminate].
    intros [= <-]. apply (filter_series _ cols _ (a, "", s') E). now left.
Qed.

Lemma getitem_tuple_series (data : DataFrame F) col s :
  getitem_tuple data col = Ok (ASeries s) -> In s (series data).
Proof.
  unfold getitem_tuple, series. destruct (columns data) as [cols|cols]; [discriminate|].
  destruct (filter _ cols) as [|c [|c' sel]] eqn:E; try discriminate.
  destruct (is_unique tuple_eqb (map fst cols)); [|discriminate].
  intros [= <-]. apply (filter_series _ cols _ c E). now left.
Qed.

Lemma iloc_last_series (data : DataFrame F) s :
  iloc_last data = Ok (ASeries s) -> In s (series data).
Proof.
  unfold iloc_last, series.
  destruct (columns data) as [cols|cols];
    (destruct (rev (map snd cols)) as [|s' t] eqn:E; [discriminate|]);
    intros [= <-]; apply in_rev; rewrite E; now left.
Qed.

(** X9. Whenever the selection of lines 17-32 succeeds, its result keeps the
    row index of its input and has flat columns: one or more called [Date]
    followed by one or more called [Close], each holding a Series of the
    input unchanged.  The selection drops and renames columns; it builds no
    new data. *)
Theorem selection_only_renames_columns (data rd : DataFrame F) :
  result_data data = Ok rd ->
  index rd = index data
  /\ exists dates prices,
       columns rd = Index (dates ++ prices)
       /\ dates <> [] /\ prices <> []
       /\ named "Date" dates /\ named "Close" prices
       /\ Forall (fun c => In (snd c) (series data)) (dates ++ prices).
Proof.
  unfold result_data. destruct (columns data) as [cols|cols] eqn:Hcols.
  - unfold getitem_list. rewrite Hcols. cbn [take_columns].
    pose proof (filter_named F "Date" cols) as Nd.
    pose proof (filter_named F "Close" cols) as Nc.
    assert (forall k, Forall (fun c : string * Series F => In (snd c) (series data))
                        (filter (fun c => String.eqb (fst c) k) cols)) as Hsub.
    { intros k. apply Forall_forall. intros x Hx. unfold series. rewrite Hcols.
      exact (filter_series _ cols _ x eq_refl Hx). }
    pose proof (Hsub "Date") as Sd. pose proof (Hsub "Close") as Sc.
    destruct (filter (fun c => String.eqb (fst c) "Date") cols) as [|d ds];
      [discriminate|].
    destruct (filter (fun c => String.eqb (fst c) "Close") cols) as [|c cs];
      [discriminate|].
    cbn [Py.bind]. intros [= <-]. cbn [index columns]. split; [reflexivity|].
    exists (d :: ds), (c :: cs). rewrite app_nil_r.
    repeat split; try assumption; try discriminate.
    apply Forall_app. now split.
  - destruct (getitem data "Date") as [date|] eqn:Hd; [|discriminate].
    cbn [Py.bind].
    destruct (match find_close (map fst cols) with
              | Some col => getitem_tuple data col
              | None => iloc_last data
              end) as [close|] eqn:Hp; [|discriminate].
    cbn [Py.bind]. unfold DataFrame_of_dict. cbn [dict_columns].
    destruct date as [s1|]; [|discriminate].
    destruct close as [s2|]; [|discriminate].
    cbn [Py.bind]. intros [= <-]. cbn [index columns]. split; [reflexivity|].
    exists [("Date", s1)], [("Close", s2)].
    repeat split; try discriminate; try (repeat constructor; fail).
    cbn [app]. constructor; [exact (getitem_series _ _ _ Hd)|].
    constructor; [|constructor]. cbn [snd].
    destruct (find_close (map fst cols)).
    + exact (getitem_tuple_series _ _ _ Hp).
    + exact (iloc_last_series _ _ Hp).
Qed.

End Shapes.

(** ** The printed line *)

Module LineFacts.
Import Json JsonFacts.

Lemma all_chars_app p a b : all_chars p (a ++ b) = all_chars p a && all_chars p b.
Proof. induction a as [|c a IH]; simpl; [reflexivity|]. now rewrite IH, andb_assoc. Qed.

Lemma all_chars_impl (p q : ascii -> bool) s :
  (forall c, p c = true -> q c = true) -> all_chars p s = true -> all_chars q s = true.
Proof.
  intros Hpq. induction s as [|c s IH]; simpl; [reflexivity|].
  intros H. apply andb_true_iff in H as [Hc Hs]. now rewrite (Hpq c Hc), IH.
Qed.

Lemma escape_char_inline c : all_chars inline (escape_char c) = true.
Proof.
  destruct c as [b0 b1 b2 b3 b4 b5 b6 b7].
  destruct b0, b1, b2, b3, b4, b5, b6, b7; reflexivity.
Qed.

Lemma quote_inline s : all_chars inline (quote s) = true.
Proof.
  unfold quote. cbn [all_chars]. rewrite all_chars_app. cbn.
  rewrite andb_true_r. induction s as [|c s IH]; [reflexivity|].
  cbn [escape]. now rewrite all_chars_app, escape_char_inline, IH.
Qed.

Lemma number_char_inline c : number_char c = true -> inline c = true.
Proof.
  intros H. destruct c as [b0 b1 b2 b3 b4 b5 b6 b7].
  destruct b0, b1, b2, b3, b4, b5, b6, b7; try reflexivity; discriminate H.
Qed.

Lemma digit_number_char c : is_digit c = true -> number_char c = true.
Proof. intros H. unfold number_char. now rewrite H. Qed.

Lemma span_digits s : all_chars number_char (fst (span is_digit s)) = true.
Proof.
  induction s as [|c s IH]; simpl; [reflexivity|].
  destruct (is_digit c) eqn:E; [|reflexivity].
  destruct (span is_digit s). simpl in *. now rewrite (digit_number_char c E), IH.
Qed.

Lemma lex_int_chars s a b : lex_int s = Some (a, b) -> all_chars number_char a = true.
Proof.
  destruct s as [|c r]; simpl; [discriminate|].
  destruct (Ascii.eqb c "0"); [intros [= <- _]; reflexivity|].
  destruct (is_digit c) eqn:E; [|discriminate].
  pose proof (span_digits r) as Hs. destruct (span is_digit r). intros [= <- _].
  simpl in *. now rewrite (digit_number_char c E), Hs.
Qed.

Lemma lex_frac_chars s a b : lex_frac s = Some (a, b) -> all_chars number_char a = true.
Proof.
  destruct s as [|c r]; simpl; [intros [= <- _]; reflexivity|].
  destruct (Ascii.eqb_spec c ".") as [->|_]; [|intros [= <- _]; reflexivity].
  pose proof (span_digits r) as Hs. destruct (span is_digit r) as [ds r'].
  destruct ds; [discriminate|]. intros [= <- _]. exact Hs.
Qed.

Lemma lex_exp_chars s a b : lex_exp s = Some (a, b) -> all_chars number_char a = true.
Proof.
  destruct s as [|c r]; simpl; [intros [= <- _]; reflexivity|].
  destruct (Ascii.eqb c "e" || Ascii.eqb c "E") eqn:Ec; [|intros [= <- _]; reflexivity].
  assert (number_char c = true) as Hc.
  { unfold number_char. apply orb_true_iff in Ec as [->| ->];
      now rewrite ?orb_true_r. }
  assert (all_chars number_char (fst (lex_exp_sign r)) = true) as Hsg.
  { destruct r as [|c' r']; simpl; [reflexivity|].
    destruct (Ascii.eqb c' "-" || Ascii.eqb c' "+") eqn:E; [|reflexivity].
    simpl. rewrite andb_true_r. unfold number_char.
    apply orb_true_iff in E as [->| ->]; now rewrite ?orb_true_r. }
  destruct (lex_exp_sign r) as [sg r1]. pose proof (span_digits r1) as Hs.
  destruct (span is_digit r1) as [ds r']. destruct ds; [discriminate|].
  intros [= <- _]. cbn [all_chars]. rewrite Hc, all_chars_app. simpl in *.
  now rewrite Hsg, Hs.
Qed.

Lemma number_chars lit : is_number lit = true -> all_chars number_char lit = true.
Proof.
  intros H. apply is_number_lex in H. revert H. unfold lex_number.
  assert (all_chars number_char (fst (lex_sign lit)) = true) as Hsg.
  { destruct lit as [|c r]; simpl; [reflexivity|].
    destruct (Ascii.eqb_spec c "-") as [->|_]; reflexivity. }
  destruct (lex_sign lit) as [sg s1]. unfold lex_unsigned.
  destruct (lex_int s1) as [[i s2]|] eqn:Hi; [|discriminate].
  destruct (lex_frac s2) as [[f s3]|] eqn:Hf; [|discriminate].
  destruct (lex_exp s3) as [[e s4]|] eqn:He; [|discriminate].
  intros [= <- _]. rewrite !all_chars_app. simpl in Hsg.
  now rewrite Hsg, (lex_int_chars _ _ _ Hi), (lex_frac_chars _ _ _ Hf),
    (lex_exp_chars _ _ _ He).
Qed.

Lemma scalar_inline v : scalar v = true -> all_chars inline (dumps v) = true.
Proof.
  destruct v as [| |lit|s| |]; try discriminate; cbn [scalar dumps].
  - reflexivity.
  - intros H. apply (all_chars_impl number_char); [exact number_char_inline|].
    now apply number_chars.
  - intros _. apply quote_inline.
Qed.

Lemma concat_inline (l : list string) :
  Forall (fun s => all_chars inline s = true) l ->
  all_chars inline (String.concat "," l) = true.
Proof.
  induction 1 as [|s l Hs Hl IH]; [reflexivity|].
  destruct l as [|s' l']; [exact Hs|].
  cbn [String.concat]. rewrite !all_chars_app, Hs. cbn [all_chars andb].
  exact IH.
Qed.

Lemma flat_object_inline k v :
  flat_object k v = true -> all_chars inline (dumps v) = true.
Proof.
  destruct v as [| | | | |members]; try discriminate. cbn [flat_object].
  intros H. apply andb_true_iff in H as [_ Hall].
  rewrite dumps_object, !all_chars_app. cbn. rewrite andb_true_r.
  apply concat_inline. apply Forall_map, Forall_forall. intros [key v] Hin.
  rewrite forallb_forall in Hall. specialize (Hall _ Hin). cbn [snd] in Hall.
  unfold member_text. cbn [fst snd].
  rewrite !all_chars_app, quote_inline, (scalar_inline v Hall). reflexivity.
Qed.

Lemma array_inline k items :
  forallb (flat_object k) items = true ->
  all_chars inline (dumps (JArray items)) = true.
Proof.
  intros Hall. cbn [dumps]. rewrite !all_chars_app. cbn. rewrite andb_true_r.
  apply concat_inline. apply Forall_map, Forall_forall. intros v Hin.
  rewrite forallb_forall in Hall. exact (flat_object_inline k v (Hall v Hin)).
Qed.

End LineFacts.

Section OneLine.

Variable F : Type.
Variable dumps_double : F -> option string.
Variable yf_download : string -> string -> result (DataFrame F).

(** X10. With an encoder that writes floats as JSON numbers or null, what a
    successful run prints is a single line: the text before the final line
    feed holds no line feed and no carriage return, whatever the strings in
    the data. *)
Theorem output_is_one_line argv :
  encoder_ok dumps_double ->
  exit_status (main dumps_double yf_download argv) = 0 ->
  exists line,
    stdout (main dumps_double yf_download argv) = line ++ String newline ""
    /\ Json.all_chars inline line = true.
Proof.
  intros Henc Hexit. destruct (main_success _ _ _ _ Hexit) as (text & Hs & ->).
  exists text. split; [reflexivity|].
  destruct (script_inv F dumps_double yf_download argv text Hs)
    as (t & s & df & data & rd & v & c & _ & _ & _ & _ & _ & _ & ->).
  apply (LineFacts.array_inline 2). apply (records_flat F dumps_double Henc).
Qed.

End OneLine.

(** * The claims on dates, as amended *)

Lemma Forall2_nth_seq {A B : Type} (R : A -> B -> Prop) (d : A) (l : list A) :
  forall f : nat -> B,
  (forall i, (i < List.length l)%nat -> R (nth i l d) (f i)) ->
  Forall2 R l (map f (seq 0 (List.length l))).
Proof.
  induction l as [|a l IH]; intros f H; [constructor|].
  cbn [List.length seq map]. constructor; [exact (H 0%nat ltac:(simpl; lia))|].
  rewrite <- seq_shift, map_map. apply IH. intros i Hi.
  exact (H (S i) ltac:(simpl; lia)).
Qed.

Lemma Forall2_weaken {A B : Type} (R S : A -> B -> Prop) (P : A -> Prop) la lb :
  (forall a b, P a -> R a b -> S a b) ->
  Forall P la -> Forall2 R la lb -> Forall2 S la lb.
Proof.
  intros H HP HR. induction HR as [|a b la lb Hab HR IH]; constructor.
  - apply H; [now inversion HP|exact Hab].
  - apply IH. now inversion HP.
Qed.

(** ** The dates of a cell *)

Lemma datetime64_cases t :
  is_datetime64 t = true ->
  (t = iNaT /\ (t =? iNaT) = true)
  \/ (is_timestamp t = true /\ (t =? iNaT) = false).
Proof.
  unfold is_datetime64, is_timestamp. intros H.
  apply andb_true_iff in H as [Hlo Hhi]. apply Z.leb_le in Hlo.
  destruct (Z.eqb_spec t iNaT) as [->|Hne]; [now left|right].
  split; [|reflexivity]. rewrite Hhi, andb_true_r. apply Z.ltb_lt. lia.
Qed.

Lemma date_json_NaT : date_json iNaT = Json.JNull.
Proof. reflexivity. Qed.

Lemma date_json_timestamp t :
  (t =? iNaT) = false ->
  date_json t = Json.JString (Calendar.isoformat (Calendar.civil_from_days (t / day_ns))).
Proof. intros H. unfold date_json, strftime_Ymd. now rewrite H. Qed.

Lemma timestamp_valid t :
  is_timestamp t = true -> Calendar.valid (Calendar.civil_from_days (t / day_ns)) = true.
Proof.
  intros Ht. pose proof (CalendarFacts.civil_valid _ (timestamp_day t Ht)) as Hv.
  destruct (Calendar.civil_from_days (t / day_ns)) as [[y m] d]. apply Hv.
Qed.

Section DatedRuns.

Variable F : Type.
Variable dumps_double : F -> option string.
Variable yf_download : string -> string -> result (DataFrame F).

(** ** The column of dates *)

(** The [Date] column of the frame bound to [result_data] is
    [data['Date']]. *)
Lemma result_data_date (data rd : DataFrame F) s c :
  result_data data = Ok rd ->
  columns rd = Index [("Date", s); ("Close", c)] ->
  getitem data "Date" = Ok (ASeries s).
Proof.
  unfold result_data, getitem. destruct (columns data) as [cols|cols] eqn:Hcols.
  - unfold getitem_list. rewrite Hcols. cbn [take_columns].
    destruct (filter (fun c => String.eqb (fst c) "Date") cols) as [|d ds];
      [discriminate|].
    destruct (filter (fun c => String.eqb (fst c) "Close") cols) as [|c' cs];
      [discriminate|].
    cbn [Py.bind]. intros [= <-]. cbn [columns app].
    destruct ds as [|d' ds].
    + cbn [app]. intros [= -> _]. reflexivity.
    + cbn [app]. intros [= _ _ Hnil]. destruct ds; discriminate Hnil.
  - destruct (match filter _ cols with [] => _ | _ => _ end) as [date|] eqn:Hd;
      [|discriminate].
    cbn [Py.bind].
    destruct (match find_close (map fst cols) with
              | Some col => getitem_tuple data col
              | None => iloc_last data
              end) as [close|]; [|discriminate].
    cbn [Py.bind]. unfold DataFrame_of_dict. cbn [dict_columns].
    destruct date as [s1|]; [|discriminate].
    destruct close as [s2|]; [|discriminate].
    cbn [Py.bind]. intros [= <-]. cbn [columns]. intros [= <- _]. reflexivity.
Qed.

(** [reset_index] keeps the rows, and its columns are the index and the
    columns it found. *)
Lemma reset_index_series (df data : DataFrame F) s :
  reset_index df = Ok data ->
  In s (series data) ->
  nrows data = nrows df
  /\ (match index df with
      | RangeIndex _ => False
      | DatetimeIndex _ v => s = datetime64 v
      end
      \/ (exists n, s = int64 n)
      \/ In s (series df)).
Proof.
  unfold reset_index, series.
  destruct (index df) as [n|name v] eqn:Hi; destruct (columns df) as [cols|cols];
    cbn beta iota zeta.
  all: match goal with
       | |- context [if ?b then Raise ValueError else _] => destruct b; [discriminate|]
       end.
  all: intros [= <-]; cbn [columns index nrows map snd In]; intros [<-|Hin];
    (split; [reflexivity|]); eauto.
Qed.

(** In a frame as pandas holds it, the column the script formats has one
    date per row. *)
Lemma date_column_ok (df data : DataFrame F) v :
  frame_ok df = true ->
  reset_index df = Ok data ->
  getitem data "Date" = Ok (ASeries (datetime64 v)) ->
  List.length v = nrows df /\ forallb is_datetime64 v = true.
Proof.
  intros Hok Hreset Hget. unfold frame_ok in Hok.
  apply andb_true_iff in Hok as [Hidx Hcols].
  destruct (reset_index_series df data _ Hreset (getitem_series F _ _ _ Hget))
    as [_ [Hs|[[n Hs]|Hs]]].
  - unfold nrows. destruct (index df) as [n|name w]; [contradiction|].
    injection Hs as ->. now split.
  - discriminate Hs.
  - rewrite forallb_forall in Hcols. specialize (Hcols _ Hs).
    unfold series_ok in Hcols. apply andb_true_iff in Hcols as [Hl Hv].
    apply Nat.eqb_eq in Hl. now split.
Qed.

(** For a daily history that column is the index. *)
Lemma history_dates idx (cols : Columns F) (data : DataFrame F) v :
  reset_index (history idx cols) = Ok data ->
  getitem data "Date" = Ok (ASeries (datetime64 v)) ->
  v = idx.
Proof.
  unfold reset_index, history. cbn [index columns]. destruct cols as [cols|cols].
  - destruct (existsb _ _) eqn:He; [discriminate|]. intros [= <-].
    unfold getitem. cbn [columns filter fst]. rewrite String.eqb_refl.
    rewrite <- (existsb_labels String.eqb String.eqb_eq) in He.
    rewrite (filter_none _ _ He). now intros [= ->].
  - destruct (existsb _ _); [discriminate|]. intros [= <-].
    unfold getitem. cbn [columns filter fst]. rewrite String.eqb_refl.
    destruct (filter _ cols); [now intros [= ->]|discriminate].
Qed.

(** ** What a successful run wrote, row by row *)

Lemma emitted_rows prog ticker start extra (df : DataFrame F) :
  encoder_ok dumps_double ->
  yf_download ticker start = Ok df ->
  frame_ok df = true ->
  exit_status (main dumps_double yf_download (prog :: ticker :: start :: extra)) = 0 ->
  exists data v recs,
    reset_index df = Ok data
    /\ getitem data "Date" = Ok (ASeries (datetime64 v))
    /\ (forall idx cols, df = history idx cols -> v = idx)
    /\ List.length v = nrows df
    /\ Forall (fun t => is_datetime64 t = true) v
    /\ Json.loads (stdout (main dumps_double yf_download (prog :: ticker :: start :: extra)))
       = Some (Json.JArray recs)
    /\ Forall2 (fun t r =>
         exists price,
           r = Json.JObject [("Date", date_json t); ("Close", price)]) v recs.
Proof.
  intros Henc Hdl Hok Hexit. destruct (main_success _ _ _ _ Hexit) as (text & Hs & ->).
  destruct (script_inv F dumps_double yf_download _ text Hs)
    as (t & s & df' & data & rd & v & c & Ht & Hs' & Hdl' & Hreset & Hrd & Hcols & ->).
  cbn [nth_error] in Ht, Hs'. injection Ht as <-. injection Hs' as <-.
  rewrite Hdl in Hdl'. injection Hdl' as <-.
  pose proof (result_data_date data rd _ c Hrd Hcols) as Hget.
  destruct (date_column_ok df data v Hok Hreset Hget) as [Hlen Hv].
  assert (nrows data = List.length v) as ->.
  { rewrite Hlen. unfold reset_index in Hreset.
    destruct (index df), (columns df); cbn beta iota zeta in Hreset.
    all: match type of Hreset with
         | context [if ?b then Raise ValueError else _] => destruct b; [discriminate|]
         end.
    all: now injection Hreset as <-. }
  exists data, v. eexists. split; [exact Hreset|]. split; [exact Hget|].
  split; [intros idx cols ->; exact (history_dates idx cols data v Hreset Hget)|].
  split; [exact Hlen|].
  split; [apply Forall_forall; rewrite forallb_forall in Hv; exact Hv|].
  split.
  { apply JsonFacts.loads_dumps_records;
      [apply (records_flat F dumps_double Henc)|reflexivity]. }
  rewrite records_two. rewrite <- (length_map date_json v) at 1.
  assert (Forall2 (fun (j : Json.json) r =>
            exists price, r = Json.JObject [("Date", j); ("Close", price)])
            (map date_json v)
            (map (fun i => Json.JObject
                    [("Date", nth i (map date_json v) Json.JNull);
                     ("Close", nth i (cells dumps_double c) Json.JNull)])
               (seq 0 (List.length (map date_json v))))) as H.
  { apply (Forall2_nth_seq _ Json.JNull). intros i _. eauto. }
  revert H. generalize (map (fun i => Json.JObject
                    [("Date", nth i (map date_json v) Json.JNull);
                     ("Close", nth i (cells dumps_double c) Json.JNull)])
               (seq 0 (List.length (map date_json v)))).
  clear. induction v as [|t v IH]; intros l H; inversion H; subst; constructor; auto.
Qed.


(** ** The claims *)

(** C5, as amended.  In every successful run the dates of the records are
    those of the rows of [data['Date']] (the index of a daily history), in
    row order: null for a row whose timestamp is missing (NaT), and for
    every other row a string of the shape [YYYY-MM-DD] that decodes to a
    date of the calendar. *)
Theorem dates_are_YYYY_MM_DD_or_null prog ticker start extra (df : DataFrame F) :
  encoder_ok dumps_double ->
  yf_download ticker start = Ok df ->
  frame_ok df = true ->
  exit_status (main dumps_double yf_download (prog :: ticker :: start :: extra)) = 0 ->
  exists data v recs,
    reset_index df = Ok data
    /\ getitem data "Date" = Ok (ASeries (datetime64 v))
    /\ (forall idx cols, df = history idx cols -> v = idx)
    /\ emitted (main dumps_double yf_download (prog :: ticker :: start :: extra)) = Some recs
    /\ Forall2 (fun t r =>
         if t =? iNaT then member "Date" r = Some Json.JNull
         else exists s d,
                member "Date" r = Some (Json.JString s)
                /\ is_YYYY_MM_DD s = true
                /\ Calendar.fromisoformat s = Some d
                /\ Calendar.valid d = true) v recs.
Proof.
  intros Henc Hdl Hok Hexit.
  destruct (emitted_rows prog ticker start extra df Henc Hdl Hok Hexit)
    as (data & v & recs & Hreset & Hget & Hhist & _ & Hv & Hloads & Hrows).
  exists data, v, recs. do 3 (split; [assumption|]).
  split; [unfold emitted; now rewrite Hloads|].
  eapply Forall2_weaken; [|exact Hv|exact Hrows]. cbv beta. intros t r Ht [price ->].
  destruct (datetime64_cases t Ht) as [[-> E]|[Hts E]]; rewrite E; [reflexivity|].
  rewrite (date_json_timestamp t E).
  pose proof (isoformat_decodes t Hts) as Hd.
  do 2 eexists. split; [reflexivity|]. split; [exact (fromisoformat_shape _ _ Hd)|].
  split; [exact Hd|exact (timestamp_valid t Hts)].
Qed.

Lemma Forall2_map_eq {A B C : Type} (f : A -> C) (g : B -> C) la lb :
  Forall2 (fun a b => g b = f a) la lb -> map g lb = map f la.
Proof. induction 1 as [|a b la lb Hab _ IH]; simpl; [reflexivity|now rewrite Hab, IH]. Qed.

(** The dates that decode are those of the rows whose timestamp is there. *)
Lemma dates_of_rows (recs : list Json.json) : forall v : list Z,
  map record_date recs
  = map (fun t => if t =? iNaT then None
                  else Some (Calendar.civil_from_days (t / day_ns))) v ->
  dates_of recs = map (fun t => Calendar.civil_from_days (t / day_ns)) (filter notna v).
Proof.
  induction recs as [|r recs IH]; intros [|t v]; try discriminate; [reflexivity|].
  cbn [map]. intros [= Hr Hrest]. unfold dates_of. cbn [flat_map filter].
  fold (dates_of recs). rewrite Hr, (IH v Hrest). unfold notna.
  destruct (t =? iNaT); reflexivity.
Qed.

(** C6, as amended.  In every successful run there are as many records as
    the provider's frame has rows, and the records carry the dates of the
    rows of [data['Date']] (the index of a daily history), in row order: the
    date of a record is null exactly when the timestamp of its row is
    missing (NaT), so a record can have a null date, and it decodes to the
    day of the timestamp otherwise.  When the timestamps that are there come
    in ascending order, the dates the records carry never decrease. *)
Theorem one_record_per_row_in_row_order prog ticker start extra (df : DataFrame F) :
  encoder_ok dumps_double ->
  yf_download ticker start = Ok df ->
  frame_ok df = true ->
  exit_status (main dumps_double yf_download (prog :: ticker :: start :: extra)) = 0 ->
  exists data v recs,
    reset_index df = Ok data
    /\ getitem data "Date" = Ok (ASeries (datetime64 v))
    /\ (forall idx cols, df = history idx cols -> v = idx)
    /\ emitted (main dumps_double yf_download (prog :: ticker :: start :: extra)) = Some recs
    /\ List.length recs = nrows df
    /\ Forall2 (fun t r => member "Date" r = Some Json.JNull <-> t = iNaT) v recs
    /\ map record_date recs
       = map (fun t => if t =? iNaT then None
                       else Some (Calendar.civil_from_days (t / day_ns))) v
    /\ (Sorted Z.le (filter notna v) ->
        StronglySorted (fun a b => Calendar.leb a b = true) (dates_of recs)).
Proof.
  intros Henc Hdl Hok Hexit.
  destruct (emitted_rows prog ticker start extra df Henc Hdl Hok Hexit)
    as (data & v & recs & Hreset & Hget & Hhist & Hlen & Hv & Hloads & Hrows).
  exists data, v, recs. do 3 (split; [assumption|]).
  split; [unfold emitted; now rewrite Hloads|].
  split; [now rewrite <- (Forall2_length Hrows)|].
  assert (map record_date recs
          = map (fun t => if t =? iNaT then None
                          else Some (Calendar.civil_from_days (t / day_ns))) v) as Hdates.
  { apply Forall2_map_eq.
    eapply Forall2_weaken; [|exact Hv|exact Hrows]. cbv beta. intros t r Ht [price ->].
    destruct (datetime64_cases t Ht) as [[-> E]|[Hts E]]; rewrite E; [reflexivity|].
    unfold record_date. cbn [member find fst snd]. rewrite String.eqb_refl.
    rewrite (date_json_timestamp t E). exact (isoformat_decodes t Hts). }
  split; [|split; [exact Hdates|]].
  - eapply Forall2_weaken; [|exact Hv|exact Hrows]. cbv beta. intros t r Ht [price ->].
    cbn [member find fst snd]. rewrite String.eqb_refl.
    destruct (datetime64_cases t Ht) as [[-> E]|[Hts E]]; [now split|].
    rewrite (date_json_timestamp t E). apply Z.eqb_neq in E.
    split; [discriminate|contradiction].
  - intros Hs. rewrite (dates_of_rows recs v Hdates). now apply sorted_dates.
Qed.

(** C9, as amended.  In every successful run the text on standard output
    parses as a JSON array with one object per row, each with exactly the
    two keys [Date] and [Close]; the date of an object decodes as a date of
    the calendar exactly when the timestamp of its row is there: for a
    missing timestamp (NaT) the date is null and does not decode. *)
Theorem output_parses_to_two_key_records prog ticker start extra (df : DataFrame F) :
  encoder_ok dumps_double ->
  yf_download ticker start = Ok df ->
  frame_ok df = true ->
  exit_status (main dumps_double yf_download (prog :: ticker :: start :: extra)) = 0 ->
  exists data v recs,
    reset_index df = Ok data
    /\ getitem data "Date" = Ok (ASeries (datetime64 v))
    /\ (forall idx cols, df = history idx cols -> v = idx)
    /\ Json.loads (stdout (main dumps_double yf_download (prog :: ticker :: start :: extra)))
       = Some (Json.JArray recs)
    /\ Forall2 (fun t r =>
         exists date price,
           r = Json.JObject [("Date", date); ("Close", price)]
           /\ keys r = ["Date"; "Close"]
           /\ if t =? iNaT then date = Json.JNull /\ record_date r = None
              else exists s d,
                     date = Json.JString s
                     /\ Calendar.fromisoformat s = Some d
                     /\ record_date r = Some d) v recs.
Proof.
  intros Henc Hdl Hok Hexit.
  destruct (emitted_rows prog ticker start extra df Henc Hdl Hok Hexit)
    as (data & v & recs & Hreset & Hget & Hhist & _ & Hv & Hloads & Hrows).
  exists data, v, recs. do 4 (split; [assumption|]).
  eapply Forall2_weaken; [|exact Hv|exact Hrows]. cbv beta. intros t r Ht [price ->].
  exists (date_json t), price. split; [reflexivity|]. split; [reflexivity|].
  unfold record_date. cbn [member find fst snd]. rewrite String.eqb_refl.
  destruct (datetime64_cases t Ht) as [[-> E]|[Hts E]]; rewrite E; [now split|].
  rewrite (date_json_timestamp t E).
  pose proof (isoformat_decodes t Hts) as Hd. eauto.
Qed.

End DatedRuns.

(** ** Sample runs of the further properties *)

Lemma provider_exception_ends_the_run_witness :
  script sample_dumps sample_offline sample_argv = Raise (DownloadError "offline")
  /\ main sample_dumps sample_offline sample_argv = failed.
Proof.
  exact (provider_exception_ends_the_run sample_price sample_dumps sample_offline
           "FetchData.py" "AAPL" "2021-05-03" [] (DownloadError "offline") eq_refl).
Defined.

Lemma flat_columns_without_Close_fail_witness :
  main sample_dumps (sample_provider sample_flat_no_close) sample_argv = failed
  /\ script sample_dumps (sample_provider sample_flat_no_close) sample_argv
     = Raise KeyError.
Proof.
  destruct (flat_columns_without_Close_fail sample_price sample_dumps
              (sample_provider sample_flat_no_close)
              "FetchData.py" "AAPL" "2021-05-03" [] [may_3; may_4] _
              eq_refl eq_refl) as [Hmain Hscript].
  split; [exact Hmain|exact (Hscript eq_refl)].
Defined.

Lemma frame_without_Date_fails_witness :
  main sample_dumps (sample_provider sample_unnamed) sample_argv = failed
  /\ (script sample_dumps (sample_provider sample_unnamed) sample_argv = Raise KeyError
      \/ script sample_dumps (sample_provider sample_unnamed) sample_argv
         = Raise ValueError).
Proof.
  apply (frame_without_Date_fails sample_price sample_dumps
           (sample_provider sample_unnamed)
           "FetchData.py" "AAPL" "2021-05-03" [] sample_unnamed eq_refl).
  - discriminate.
  - intros [H|[]]. discriminate H.
Defined.

Lemma field_called_Date_clashes_with_index_witness :
  script sample_dumps (sample_provider sample_date_field) sample_argv = Raise ValueError
  /\ main sample_dumps (sample_provider sample_date_field) sample_argv = failed.
Proof.
  exact (field_called_Date_clashes_with_index sample_price sample_dumps
           (sample_provider sample_date_field)
           "FetchData.py" "AAPL" "2021-05-03" [] [may_3; may_4]
           (Index [("Date", object [Some "Mon"; Some "Tue"]);
                   ("Close", float64 [p132_04; p127_85])])
           eq_refl (or_introl eq_refl)).
Defined.

Lemma repeated_Close_column_fails_witness :
  script sample_dumps (sample_provider sample_two_close) sample_argv = Raise ValueError
  /\ main sample_dumps (sample_provider sample_two_close) sample_argv = failed.
Proof.
  exact (repeated_Close_column_fails sample_price sample_dumps
           (sample_provider sample_two_close)
           "FetchData.py" "AAPL" "2021-05-03" [] [may_3; may_4]
           [("Close", float64 [p132_04; p127_85]); ("Close", float64 [p127_85; p132_04])]
           ("Close", float64 [p132_04; p127_85]) ("Close", float64 [p127_85; p132_04]) []
           eq_refl eq_refl eq_refl).
Defined.

Lemma strftime_tells_the_day_and_nothing_else_witness :
  strftime_Ymd may_3 = strftime_Ymd (may_3 + 86399999999999)
  <-> may_3 / day_ns = (may_3 + 86399999999999) / day_ns.
Proof.
  exact (strftime_tells_the_day_and_nothing_else may_3 (may_3 + 86399999999999)
           eq_refl eq_refl).
Defined.

Lemma missing_timestamp_is_a_null_date_witness :
  exists recs,
    emitted (main sample_dumps (sample_provider sample_gap) sample_argv) = Some recs
    /\ map (member "Date") recs
       = map (fun t =>
                Some (if t =? iNaT then Json.JNull
                      else Json.JString
                             (Calendar.isoformat (Calendar.civil_from_days (t / day_ns)))))
             [may_3; iNaT].
Proof.
  exact (missing_timestamp_is_a_null_date sample_price sample_dumps
           (sample_provider sample_gap)
           "FetchData.py" "AAPL" "2021-05-03" [] [may_3; iNaT] _
           sample_encoder_ok eq_refl eq_refl).
Defined.

Lemma flat_and_two_level_responses_agree_witness :
  main sample_dumps (sample_provider sample_multi) sample_argv
  = main sample_dumps (sample_provider sample_flat) sample_argv
  /\ exit_status (main sample_dumps (sample_provider sample_flat) sample_argv) = 0.
Proof.
  exact (flat_and_two_level_responses_agree sample_price sample_dumps
           (sample_provider sample_flat) (sample_provider sample_multi)
           "FetchData.py" "AAPL" "2021-05-03" [] [may_3; may_4] _ "AAPL"
           (float64 [p132_04; p127_85])
           eq_refl eq_refl eq_refl (or_introl eq_refl)).
Defined.

Lemma selection_only_renames_columns_witness :
  let rd := {| index := RangeIndex 2;
               columns := Index [("Date", datetime64 [may_3; may_4]);
                                 ("Close", float64 [p132_04; p127_85])] |} in
  index rd = index sample_reset
  /\ exists dates prices,
       columns rd = Index (dates ++ prices)%list
       /\ dates <> [] /\ prices <> []
       /\ named "Date" dates /\ named "Close" prices
       /\ Forall (fun c => In (snd c) (series sample_reset)) (dates ++ prices)%list.
Proof.
  exact (selection_only_renames_columns sample_price sample_reset _ eq_refl).
Defined.

Lemma output_is_one_line_witness :
  exists line,
    stdout (main sample_dumps (sample_provider sample_flat) sample_argv)
    = line ++ String newline ""
    /\ Json.all_chars inline line = true.
Proof.
  exact (output_is_one_line sample_price sample_dumps (sample_provider sample_flat)
           sample_argv sample_encoder_ok eq_refl).
Defined.

(** ** The run with a missing timestamp *)

(** What the script prints for a history whose second timestamp is NaT. *)
Lemma sample_gap_records :
  Json.loads (stdout (main sample_dumps (sample_provider sample_gap) sample_argv))
  = Some (Json.JArray
      [Json.JObject [("Date", Json.JString "2021-05-03"); ("Close", Json.JNumber "132.04")];
       Json.JObject [("Date", Json.JNull); ("Close", Json.JNull)]]).
Proof. vm_compute. reflexivity. Qed.

Lemma null_date_is_not_a_string :
  let run := main sample_dumps (sample_provider sample_gap) sample_argv in
  exit_status run = 0
  /\ exists recs,
       emitted run = Some recs
       /\ ~ Forall (fun r =>
              exists s, member "Date" r = Some (Json.JString s)
                        /\ is_YYYY_MM_DD s = true) recs.
Proof.
  cbv zeta. split; [reflexivity|]. eexists. split.
  - unfold emitted. rewrite sample_gap_records. reflexivity.
  - intros H. inversion H as [|? ? _ H']. inversion H' as [|? ? [s [Hs _]] _].
    discriminate Hs.
Qed.

Lemma missing_timestamp_gives_a_null_date :
  let run := main sample_dumps (sample_provider sample_gap) sample_argv in
  exit_status run = 0
  /\ exists recs,
       emitted run = Some recs
       /\ Exists (fun r => member "Date" r = Some Json.JNull) recs.
Proof.
  cbv zeta. split; [reflexivity|]. eexists. split.
  - unfold emitted. rewrite sample_gap_records. reflexivity.
  - apply Exists_cons_tl, Exists_cons_hd. reflexivity.
Qed.

Lemma null_date_does_not_decode :
  let run := main sample_dumps (sample_provider sample_gap) sample_argv in
  exit_status run = 0
  /\ exists recs,
       Json.loads (stdout run) = Some (Json.JArray recs)
       /\ Forall (fun r => keys r = ["Date"; "Close"]) recs
       /\ Exists (fun r => record_date r = None) recs.
Proof.
  cbv zeta. split; [reflexivity|]. eexists. split; [exact sample_gap_records|].
  split; [repeat constructor|].
  apply Exists_cons_tl, Exists_cons_hd. reflexivity.
Qed.

Lemma dates_are_YYYY_MM_DD_or_null_witness :
  exists data v recs,
    reset_index sample_gap = Ok data
    /\ getitem data "Date" = Ok (ASeries (datetime64 v))
    /\ (forall idx cols, sample_gap = history idx cols -> v = idx)
    /\ emitted (main sample_dumps (sample_provider sample_gap) sample_argv) = Some recs
    /\ Forall2 (fun t r =>
         if t =? iNaT then member "Date" r = Some Json.JNull
         else exists s d,
                member "Date" r = Some (Json.JString s)
                /\ is_YYYY_MM_DD s = true
                /\ Calendar.fromisoformat s = Some d
                /\ Calendar.valid d = true) v recs.
Proof.
  exact (dates_are_YYYY_MM_DD_or_null sample_price sample_dumps
           (sample_provider sample_gap)
           "FetchData.py" "AAPL" "2021-05-03" [] sample_gap
           sample_encoder_ok eq_refl eq_refl eq_refl).
Defined.

Lemma one_record_per_row_in_row_order_witness :
  exists data v recs,
    reset_index sample_gap = Ok data
    /\ getitem data "Date" = Ok (ASeries (datetime64 v))
    /\ (forall idx cols, sample_gap = history idx cols -> v = idx)
    /\ emitted (main sample_dumps (sample_provider sample_gap) sample_argv) = Some recs
    /\ List.length recs = nrows sample_gap
    /\ Forall2 (fun t r => member "Date" r = Some Json.JNull <-> t = iNaT) v recs
    /\ map record_date recs
       = map (fun t => if t =? iNaT then None
                       else Some (Calendar.civil_from_days (t / day_ns))) v
    /\ (Sorted Z.le (filter notna v) ->
        StronglySorted (fun a b => Calendar.leb a b = true) (dates_of recs)).
Proof.
  exact (one_record_per_row_in_row_order sample_price sample_dumps
           (sample_provider sample_gap)
           "FetchData.py" "AAPL" "2021-05-03" [] sample_gap
           sample_encoder_ok eq_refl eq_refl eq_refl).
Defined.

Lemma output_parses_to_two_key_records_witness :
  exists data v recs,
    reset_index sample_gap = Ok data
    /\ getitem data "Date" = Ok (ASeries (datetime64 v))
    /\ (forall idx cols, sample_gap = history idx cols -> v = idx)
    /\ Json.loads (stdout (main sample_dumps (sample_provider sample_gap) sample_argv))
       = Some (Json.JArray recs)
    /\ Forall2 (fun t r =>
         exists date price,
           r = Json.JObject [("Date", date); ("Close", price)]
           /\ keys r = ["Date"; "Close"]
           /\ if t =? iNaT then date = Json.JNull /\ record_date r = None
              else exists s d,
                     date = Json.JString s
                     /\ Calendar.fromisoformat s = Some d
                     /\ record_date r = Some d) v recs.
Proof.
  exact (output_parses_to_two_key_records sample_price sample_dumps
           (sample_provider sample_gap)
           "FetchData.py" "AAPL" "2021-05-03" [] sample_gap
           sample_encoder_ok eq_refl eq_refl eq_refl).
Defined.
